(** * mcp-cli: runtime prerequisites and client installation

    A shallow embedding of [src/utils/runtime.ts] and
    [src/commands/installServerForClient.ts].

    - JavaScript objects used as dictionaries are finite maps
      [gmap string _] of their own properties. For [mcpServers], which
      is written by a property assignment, what the object inherits
      from is kept as well, since assigning to [__proto__] changes that
      and not the properties. Environment records are built by object
      spread, which only copies own properties.
    - Optional object properties distinguish a missing key from a key
      holding [undefined], because the source uses both the [in] operator
      and plain property reads.
    - Asynchronous functions are computations in a state-and-exception
      monad over an abstract outside world; every call that leaves the
      program (process execution, prompts, file access, console) is
      appended to a trace. *)

From stdpp Require Import gmap strings list fin_maps.
From Stdlib Require Import Ascii String.

Open Scope string_scope.

(** ** Strings *)

(** The double-quote character, needed inside the PowerShell command lines. *)
Definition dquote : string := String (ascii_of_nat 34) EmptyString.

(** [String.prototype.startsWith] on the code units of a string. *)
Fixpoint startsWith (s p : string) {struct p} : bool :=
  match p, s with
  | EmptyString, _ => true
  | String _ _, EmptyString => false
  | String a p', String b s' => if Ascii.eqb a b then startsWith s' p' else false
  end.

(** [String.prototype.includes]: some suffix of [s] starts with [needle]. *)
Fixpoint includes (s needle : string) : bool :=
  startsWith s needle ||
  match s with
  | EmptyString => false
  | String _ s' => includes s' needle
  end.

(** The substring relation the claims speak about. *)
Definition contains_substring (s needle : string) : Prop :=
  exists pre post : string, s = pre +:+ needle +:+ post.

(** ** Connection and server records *)

(** An optional property of a JavaScript object: the key may be missing,
    or present and holding either [undefined] or a value. *)
Inductive property (A : Type) : Type :=
| Missing : property A
| Holding : option A -> property A.
Arguments Missing {A}.
Arguments Holding {A} _.

(** Property read [o.k]: a missing key reads as [undefined]. *)
Definition read {A : Type} (p : property A) : option A :=
  match p with
  | Missing => None
  | Holding v => v
  end.

(** The [in] operator: is the key there at all. *)
Definition has_key {A : Type} (p : property A) : bool :=
  match p with
  | Missing => false
  | Holding _ => true
  end.

(** [ConnectionInfo] of the registry SDK, restricted to the properties the
    two source files look at. [type] is kept as a string: the code compares
    it against string literals only. *)
Record ConnectionInfo : Type := mkConnectionInfo {
  type : string;
  deploymentUrl : property string;
  stdioFunction : property string
}.

(** The argument of [isRemote]: [{ connections; remote? }]. *)
Record ServerInfo : Type := mkServerInfo {
  connections : list ConnectionInfo;
  remote : option bool
}.

(** [connection.stdioFunction?.includes(needle)] used as a condition:
    [undefined] is falsy. *)
Definition stdioFunction_includes (connection : ConnectionInfo) (needle : string) : bool :=
  match read (stdioFunction connection) with
  | Some f => includes f needle
  | None => false
  end.

Definition isUVRequired (connection : ConnectionInfo) : bool :=
  if String.eqb (type connection) "stdio" && stdioFunction_includes connection "uvx"
  then true
  else false.

Definition isBunRequired (connection : ConnectionInfo) : bool :=
  if String.eqb (type connection) "stdio" && stdioFunction_includes connection "bunx"
  then true
  else false.

(** [server.remote !== false] *)
Definition not_strictly_false (r : option bool) : bool :=
  match r with
  | Some false => false
  | _ => true
  end.

Definition isRemote (server : ServerInfo) : bool :=
  existsb
    (fun conn => String.eqb (type conn) "http" && has_key (deploymentUrl conn))
    (connections server)
  && not_strictly_false (remote server).

(** ** Configuration documents *)

(** Values of type [any], as far as JSON-like data goes. The code never
    looks inside a server configuration, so the payload of [JNum] is
    immaterial. *)
#[warnings="-register-all"]
Inductive json : Type :=
| JUndefined : json
| JNull : json
| JBool : bool -> json
| JNum : Z -> json
| JStr : string -> json
| JArr : list json -> json
| JObj : list (string * json) -> json.

(** What an object inherits from. Every object that comes out of
    [JSON.parse] or an object literal inherits from [Object.prototype];
    the [__proto__] setter can put [null], a plain object or an array
    in its place. *)
Inductive prototype : Type :=
| ObjectPrototype : prototype
| NullPrototype : prototype
| PlainObject : list (string * json) -> prototype
| ArrayObject : list json -> prototype.

(** The values the [__proto__] setter of [Object.prototype] accepts:
    objects and [null]. For any other value it returns without doing
    anything. *)
Definition as_prototype (v : json) : option prototype :=
  match v with
  | JNull => Some NullPrototype
  | JObj props => Some (PlainObject props)
  | JArr items => Some (ArrayObject items)
  | JUndefined | JBool _ | JNum _ | JStr _ => None
  end.

(** Looking the property [__proto__] up from prototype [p] on: does the
    lookup end at the accessor of [Object.prototype]? With [null] there
    is nothing to inherit; a plain object with a key [__proto__] of its
    own (as [JSON.parse] makes them) shadows the accessor with a data
    property; otherwise the chain goes on to [Object.prototype]. *)
Definition inherits_proto_accessor (p : prototype) : bool :=
  match p with
  | ObjectPrototype => true
  | NullPrototype => false
  | PlainObject props => negb (existsb (fun kv => String.eqb (fst kv) "__proto__") props)
  | ArrayObject _ => true
  end.

(** A client configuration document: the own properties of the
    [mcpServers] object, what that object inherits from, and every other
    top-level key of the document. *)
Record ClientConfig : Type := mkClientConfig {
  mcpServers : gmap string json;
  mcpServers_prototype : prototype;
  others : gmap string json
}.

(** Does the assignment [config.mcpServers[serverName] = ...] run the
    [__proto__] setter instead of writing a property: the name is
    [__proto__], the object has no such key of its own, and the lookup
    along its prototypes ends at the accessor. *)
Definition runs_proto_setter (config : ClientConfig) (serverName : string) : bool :=
  String.eqb serverName "__proto__"
  && negb (bool_decide (is_Some (mcpServers config !! serverName)))
  && inherits_proto_accessor (mcpServers_prototype config).

(** [config.mcpServers[serverName] = serverConfig], an ordinary property
    assignment. It writes the object's own property, creating it when it
    is not there, unless it runs the [__proto__] setter: the setter
    replaces what the object inherits from when the value is an object
    or [null], does nothing otherwise, and never creates a property. *)
Definition assign_mcpServer (config : ClientConfig) (serverName : string)
    (serverConfig : json) : ClientConfig :=
  if runs_proto_setter config serverName then
    match as_prototype serverConfig with
    | Some p =>
        {| mcpServers := mcpServers config;
           mcpServers_prototype := p;
           others := others config |}
    | None => config
    end
  else
    {| mcpServers := <[serverName := serverConfig]> (mcpServers config);
       mcpServers_prototype := mcpServers_prototype config;
       others := others config |}.

Record InstallServerForClientParams : Type := mkParams {
  client : string;
  qualifiedName : string;
  serverConfig : json
}.

(** ** Effects *)

(** A thrown value: an [Error] with its message, or anything else,
    kept as its [String(...)] rendering. *)
Inductive exn : Type :=
| ErrorObject (message : string)
| ThrownValue (rendering : string).

(** [error instanceof Error ? error.message : String(error)] *)
Definition error_text (error : exn) : string :=
  match error with
  | ErrorObject message => message
  | ThrownValue rendering => rendering
  end.

Inductive result (A : Type) : Type :=
| Ok : A -> result A
| Throw : exn -> result A.
Arguments Ok {A} _.
Arguments Throw {A} _.

Definition succeeded {A : Type} (r : result A) : bool :=
  match r with
  | Ok _ => true
  | Throw _ => false
  end.

(** The return value of [setApiKey]. *)
Record SaveResult : Type := mkSaveResult { success : bool }.

(** What the program does to the outside, in order. [Exec] records
    whether the child process ended successfully. *)
Inductive event : Type :=
| Verbose (msg : string)
| ConsoleLog (msg : string)
| ConsoleWarn (msg : string)
| ConsoleError (msg : string)
| SpinnerStart (msg : string)
| SpinnerSucceed (msg : string)
| SpinnerFail (msg : string)
| Exec (command : string) (ok : bool)
| Confirm (message : string)
| Password (message : string)
| ReadConfig (client : string)
| WriteConfig (config : ClientConfig) (client : string)
| PromptForRestart (client : string)
| GetApiKey
| SetApiKey (key : string).

(** The functions imported from outside the two source files, each a
    transformer of the outside world that may throw. *)
Class Externals (World : Type) : Type := {
  (* process.platform *)
  platform : string;
  (* promisify(exec) of node:child_process *)
  exec_world : string -> World -> result unit * World;
  (* inquirer.prompt with one confirm question, projected on its answer *)
  confirm_world : string -> World -> result bool * World;
  (* inquirer.prompt with one password question; inquirer runs the
     validator and only hands back an accepted input *)
  password_world : string -> World -> result string * World;
  (* ../client-config *)
  readConfig_world : string -> World -> result ClientConfig * World;
  writeConfig_world : ClientConfig -> string -> World -> result unit * World;
  (* ../utils/client *)
  promptForRestart_world : string -> World -> result unit * World;
  (* ../utils/config *)
  getServerName : string -> string;
  (* ../smithery-config *)
  getApiKey_world : World -> result (option string) * World;
  setApiKey_world : string -> World -> result SaveResult * World;
  (* @modelcontextprotocol/sdk/client/stdio.js *)
  getDefaultEnvironment : World -> gmap string string
}.

(** The outcome of running a computation: its result, the world it
    leaves, and the events it emitted. *)
Record outcome (World A : Type) : Type := mkOutcome {
  res : result A;
  after : World;
  emitted : list event
}.
Arguments mkOutcome {World A} _ _ _.
Arguments res {World A} _.
Arguments after {World A} _.
Arguments emitted {World A} _.

Definition M (World A : Type) : Type := World -> outcome World A.

Definition M_ret {World A : Type} (a : A) : M World A :=
  fun w => mkOutcome (Ok a) w [].

(** The events [evs] happened before the outcome [o]. *)
Definition preceded_by {World A : Type} (evs : list event) (o : outcome World A)
    : outcome World A :=
  match o with
  | mkOutcome r w evs' => mkOutcome r w (evs ++ evs')
  end.

(** Sequencing: a throw skips the continuation, keeping the world and
    the events so far. *)
Definition M_bind {World A B : Type} (k : A -> M World B) (m : M World A) : M World B :=
  fun w =>
    match m w with
    | mkOutcome (Ok a) w1 evs => preceded_by evs (k a w1)
    | mkOutcome (Throw e) w1 evs => mkOutcome (Throw e) w1 evs
    end.

(** [try { m } catch (error) { handler error }] *)
Definition try_catch {World A : Type} (m : M World A) (handler : exn -> M World A) : M World A :=
  fun w =>
    match m w with
    | mkOutcome (Ok a) w1 evs => mkOutcome (Ok a) w1 evs
    | mkOutcome (Throw e) w1 evs => preceded_by evs (handler e w1)
    end.

#[global] Instance M_mret {World : Type} : MRet (M World) := @M_ret World.
#[global] Instance M_mbind {World : Type} : MBind (M World) := @M_bind World.

(** An output-only action: it cannot fail and leaves the world alone. *)
Definition emit {World : Type} (e : event) : M World unit :=
  fun w => mkOutcome (Ok tt) w [e].

(** A call to an imported function, logged with [ev]. *)
Definition external {World A : Type} (ev : result A -> event)
    (f : World -> result A * World) : M World A :=
  fun w => let '(r, w') := f w in mkOutcome r w' [ev r].

(** [chalk] only wraps a text in terminal colour codes; the model keeps
    the text. *)
Definition chalk (s : string) : string := s.

(** ** The program *)

Section Program.
Context {World : Type} {E : Externals World}.

Local Abbreviation Eff := (M World).

(** *** Imported functions as logged calls *)

Definition verbose (msg : string) : Eff unit := emit (Verbose msg).
Definition console_log (msg : string) : Eff unit := emit (ConsoleLog msg).
Definition console_warn (msg : string) : Eff unit := emit (ConsoleWarn msg).
Definition console_error (msg : string) : Eff unit := emit (ConsoleError msg).
Definition spinner_start (msg : string) : Eff unit := emit (SpinnerStart msg).
Definition spinner_succeed (msg : string) : Eff unit := emit (SpinnerSucceed msg).
Definition spinner_fail (msg : string) : Eff unit := emit (SpinnerFail msg).

Definition execAsync (command : string) : Eff unit :=
  external (fun r => Exec command (succeeded r)) (exec_world command).

Definition inquirer_confirm (message : string) : Eff bool :=
  external (fun _ => Confirm message) (confirm_world message).

Definition inquirer_password (message : string) : Eff string :=
  external (fun _ => Password message) (password_world message).

Definition readConfig (client : string) : Eff ClientConfig :=
  external (fun _ => ReadConfig client) (readConfig_world client).

Definition writeConfig (config : ClientConfig) (client : string) : Eff unit :=
  external (fun _ => WriteConfig config client) (writeConfig_world config client).

Definition promptForRestart (client : string) : Eff unit :=
  external (fun _ => PromptForRestart client) (promptForRestart_world client).

Definition getApiKey : Eff (option string) :=
  external (fun _ => GetApiKey) getApiKey_world.

Definition setApiKey (apiKey : string) : Eff SaveResult :=
  external (fun _ => SetApiKey apiKey) (setApiKey_world apiKey).

(** *** runtime.ts *)

Definition checkUVInstalled : Eff bool :=
  try_catch (execAsync "uvx --version";; mret true) (fun _ => mret false).

Definition uv_powershell : string :=
  "powershell -ExecutionPolicy ByPass -c " +:+ dquote +:+
  "irm https://astral.sh/uv/install.ps1 | iex" +:+ dquote.
Definition uv_curl : string := "curl -LsSf https://astral.sh/uv/install.sh | sh".
Definition uv_wget : string := "wget -qO- https://astral.sh/uv/install.sh | sh".

Definition promptForUVInstall : Eff bool :=
  shouldInstall ← inquirer_confirm
    "UV package manager is required for Python MCP servers. Would you like to install it?";
  if negb shouldInstall then
    console_warn (chalk
      "UV installation was declined. You can install it manually from https://astral.sh/uv");;
    mret false
  else
    spinner_start "Installing UV package manager...";;
    try_catch
      ((if String.eqb platform "win32" then
          execAsync uv_powershell
        else
          try_catch (execAsync uv_curl) (fun _ => execAsync uv_wget));;
       spinner_succeed "✓ UV installed successfully";;
       mret true)
      (fun _ =>
         spinner_fail
           "Failed to install UV. You can install it manually from https://astral.sh/uv";;
         mret false).

Definition checkBunInstalled : Eff bool :=
  try_catch (execAsync "bun --version";; mret true) (fun _ => mret false).

Definition bun_powershell : string :=
  "powershell -c " +:+ dquote +:+ "irm bun.sh/install.ps1|iex" +:+ dquote.
Definition bun_brew : string := "brew install oven-sh/bun/bun".
Definition bun_curl : string := "curl -fsSL https://bun.sh/install | bash".

Definition promptForBunInstall : Eff bool :=
  shouldInstall ← inquirer_confirm
    "Bun is required for this operation. Would you like to install it?";
  if negb shouldInstall then
    console_warn (chalk
      "Bun installation was declined. You can install it manually from https://bun.sh");;
    mret false
  else
    try_catch
      (console_log "Installing Bun...";;
       (if String.eqb platform "win32" then
          execAsync bun_powershell
        else
          try_catch
            (console_log "Attempting to install Bun via Homebrew...";;
             execAsync bun_brew)
            (fun _ =>
               console_log "Homebrew installation failed, trying direct installation...";;
               execAsync bun_curl));;
       console_log (chalk "Bun installed successfully!");;
       mret true)
      (fun error =>
         console_error (chalk "Failed to install Bun:" +:+ " " +:+ error_text error);;
         console_log "Please install Bun manually from https://bun.sh";;
         mret false).

(** [{ ...defaultEnv, ...baseEnv }]: later spreads win, and an omitted
    argument defaults to the empty record. *)
Definition getRuntimeEnvironment (baseEnv : option (gmap string string)) (w : World)
    : gmap string string :=
  let baseEnv := default ∅ baseEnv in
  let defaultEnv := getDefaultEnvironment w in
  baseEnv ∪ defaultEnv.

Definition uv_warning : string := "UV is not installed. The server might fail to launch.".
Definition bun_warning : string := "Bun is not installed. The server might fail to launch.".

Definition ensureUVInstalled (connection : ConnectionInfo) : Eff unit :=
  if isUVRequired connection then
    verbose "UV installation check required";;
    uvInstalled ← checkUVInstalled;
    if negb uvInstalled then
      installed ← promptForUVInstall;
      if negb installed then console_warn (chalk uv_warning) else mret tt
    else mret tt
  else mret tt.

Definition ensureBunInstalled (connection : ConnectionInfo) : Eff unit :=
  if isBunRequired connection then
    verbose "Bun installation check required";;
    bunInstalled ← checkBunInstalled;
    if negb bunInstalled then
      installed ← promptForBunInstall;
      if negb installed then console_warn (chalk bun_warning) else mret tt
    else mret tt
  else mret tt.


Definition promptForApiKey : Eff string :=
  inquirer_password
    ("Please enter your Smithery API key " +:+ chalk "(get one for free from" +:+ " "
     +:+ chalk "https://smithery.ai/account/api-keys" +:+ chalk ")" +:+ ":").

(** Truthiness of a value of type [string | undefined]: the string when
    it is there and not empty. *)
Definition truthy (s : option string) : option string :=
  match s with
  | Some k => if String.eqb k EmptyString then None else Some k
  | None => None
  end.

Definition ensureApiKey (apiKey : option string) : Eff string :=
  match truthy apiKey with
  | Some apiKey => mret apiKey
  | None =>
      savedApiKey ← getApiKey;
      match truthy savedApiKey with
      | Some savedApiKey => mret savedApiKey
      | None =>
          promptedApiKey ← promptForApiKey;
          saveResult ← setApiKey promptedApiKey;
          (if negb (success saveResult) then
             console_warn (chalk
               "Warning: Could not save API key to config. You may need to enter it again next time.")
           else mret tt);;
          mret promptedApiKey
      end
  end.

(** *** installServerForClient.ts *)

Definition installServerForClient (params : InstallServerForClientParams) : Eff unit :=
  let client := client params in
  let qualifiedName := qualifiedName params in
  let serverConfig := serverConfig params in
  verbose ("Reading configuration for client: " +:+ client);;
  config ← readConfig client;
  verbose "Normalizing server ID...";;
  let serverName := getServerName qualifiedName in
  verbose ("Normalized server ID: " +:+ serverName);;
  verbose "Updating client configuration...";;
  let config := assign_mcpServer config serverName serverConfig in
  verbose "Writing updated configuration...";;
  writeConfig config client;;
  verbose "Configuration successfully written";;
  console_log (chalk (qualifiedName +:+ " successfully installed for " +:+ client));;
  verbose "Prompting for client restart...";;
  promptForRestart client;;
  verbose "Installation process completed".

End Program.

(** ** Reading a trace *)

(** The configurations handed to [writeConfig], with their client. *)
Definition written_configs (tr : list event) : list (ClientConfig * string) :=
  omap (fun e => match e with WriteConfig c cl => Some (c, cl) | _ => None end) tr.

(** The command lines run through [execAsync], each with whether it
    ended successfully. *)
Definition executed (tr : list event) : list (string * bool) :=
  omap (fun e => match e with Exec c ok => Some (c, ok) | _ => None end) tr.

(** The keys passed to [setApiKey]. *)
Definition saved_keys (tr : list event) : list string :=
  omap (fun e => match e with SetApiKey k => Some k | _ => None end) tr.

(** Was the user asked to type an API key. *)
Definition asked_for_key (tr : list event) : bool :=
  existsb (fun e => match e with Password _ => true | _ => false end) tr.

(** ** Shapes of an installer run *)

Definition is_powershell (command : string) : bool := startsWith command "powershell".
Definition is_curl_pipe (command : string) : bool :=
  startsWith command "curl" && includes command "| ".
Definition is_wget_pipe (command : string) : bool :=
  startsWith command "wget" && includes command "| ".
Definition is_brew (command : string) : bool := startsWith command "brew install".

(** The selection as the specification words it: PowerShell on Windows;
    elsewhere a curl download piped to a shell, followed by a wget
    download exactly when the curl command failed. *)
Definition spec_install_selection (platform : string) (run : list (string * bool)) : bool :=
  if String.eqb platform "win32" then
    match run with
    | [(c, _)] => is_powershell c
    | _ => false
    end
  else
    match run with
    | [(c, true)] => is_curl_pipe c
    | [(c, false); (c', _)] => is_curl_pipe c && is_wget_pipe c'
    | _ => false
    end.

(** The selection [promptForBunInstall] makes: PowerShell on Windows;
    elsewhere Homebrew, followed by a curl download piped to a shell
    exactly when Homebrew failed. *)
Definition brew_install_selection (platform : string) (run : list (string * bool)) : bool :=
  if String.eqb platform "win32" then
    match run with
    | [(c, _)] => is_powershell c
    | _ => false
    end
  else
    match run with
    | [(c, true)] => is_brew c
    | [(c, false); (c', _)] => is_brew c && is_curl_pipe c'
    | _ => false
    end.

Definition uv_question : string :=
  "UV package manager is required for Python MCP servers. Would you like to install it?".
Definition bun_question : string :=
  "Bun is required for this operation. Would you like to install it?".

(** ** Situations of the outside world *)

Section Situations.
Context {World : Type} {E : Externals World}.

(** Running [command] in [w] fails and leaves [w1]. *)
Definition command_fails (command : string) (w w1 : World) : Prop :=
  exists e, exec_world command w = (Throw e, w1).

(** The user answers no to [question]. *)
Definition declines (question : string) (w : World) : Prop :=
  exists w1, confirm_world question w = (Ok false, w1).

(** The user answers yes to the UV question and no install command
    succeeds: the PowerShell one on Windows, curl and then wget
    elsewhere. *)
Definition uv_install_fails (w : World) : Prop :=
  exists w1, confirm_world uv_question w = (Ok true, w1) /\
    if String.eqb platform "win32" then
      exists w2, command_fails uv_powershell w1 w2
    else
      exists w2 w3, command_fails uv_curl w1 w2 /\ command_fails uv_wget w2 w3.

(** The user answers yes to the Bun question and no install command
    succeeds: the PowerShell one on Windows, Homebrew and then curl
    elsewhere. *)
Definition bun_install_fails (w : World) : Prop :=
  exists w1, confirm_world bun_question w = (Ok true, w1) /\
    if String.eqb platform "win32" then
      exists w2, command_fails bun_powershell w1 w2
    else
      exists w2 w3, command_fails bun_brew w1 w2 /\ command_fails bun_curl w2 w3.

End Situations.

(** ** A scripted machine

    A concrete outside world on which the statements below are run. *)

Module Scenario.

Record Machine : Type := mkMachine {
  failing : list string;              (* command lines that exit with an error *)
  consent : bool;                     (* the answer given to confirm prompts *)
  typed_key : string;                 (* the key typed at the password prompt *)
  files : gmap string ClientConfig;   (* configuration file of each client *)
  read_only : bool;                   (* configuration files cannot be written *)
  saved_key : option string;          (* the key in the local settings *)
  process_env : gmap string string
}.

Definition command_failed (command : string) : exn :=
  ErrorObject ("Command failed: " +:+ command).

Definition run_command (command : string) (m : Machine) : result unit * Machine :=
  if existsb (String.eqb command) (failing m)
  then (Throw (command_failed command), m)
  else (Ok tt, m).

Definition read_file (client : string) (m : Machine) : result ClientConfig * Machine :=
  match files m !! client with
  | Some config => (Ok config, m)
  | None => (Throw (ErrorObject ("ENOENT: " +:+ client)), m)
  end.

Definition write_file (config : ClientConfig) (client : string) (m : Machine)
    : result unit * Machine :=
  if read_only m then (Throw (ErrorObject ("EACCES: " +:+ client)), m)
  else (Ok tt,
        {| failing := failing m; consent := consent m; typed_key := typed_key m;
           files := <[client := config]> (files m); read_only := read_only m;
           saved_key := saved_key m; process_env := process_env m |}).

Definition save_key (key : string) (m : Machine) : result SaveResult * Machine :=
  (Ok (mkSaveResult true),
   {| failing := failing m; consent := consent m; typed_key := typed_key m;
      files := files m; read_only := read_only m;
      saved_key := Some key; process_env := process_env m |}).

(** A stand-in for the name normaliser: a leading [@scope/] is dropped. *)
Definition strip_scope (qualifiedName : string) : string :=
  if startsWith qualifiedName "@" then
    match String.index 0 "/" qualifiedName with
    | Some i => String.substring (S i) (String.length qualifiedName - S i) qualifiedName
    | None => qualifiedName
    end
  else qualifiedName.

Definition machine (os : string) : Externals Machine := {|
  platform := os;
  exec_world := run_command;
  confirm_world := fun _ m => (Ok (consent m), m);
  password_world := fun _ m => (Ok (typed_key m), m);
  readConfig_world := read_file;
  writeConfig_world := write_file;
  promptForRestart_world := fun _ m => (Ok tt, m);
  getServerName := strip_scope;
  getApiKey_world := fun m => (Ok (saved_key m), m);
  setApiKey_world := save_key;
  getDefaultEnvironment := process_env
|}.

Definition filesystem_server : json :=
  JObj [("command", JStr "npx");
        ("args", JArr [JStr "-y"; JStr "@modelcontextprotocol/server-filesystem"]);
        ("env", JObj [("ROOT", JStr "/srv")])].

Definition amap_sse : json := JObj [("url", JStr "https://mcp.amap.com/sse")].
Definition amap_stdio : json :=
  JObj [("command", JStr "npx"); ("args", JArr [JStr "-y"; JStr "@amap/amap-maps-mcp-server"])].

Definition cline_config : ClientConfig :=
  {| mcpServers := {[ "filesystem" := filesystem_server; "amap" := amap_sse ]};
     mcpServers_prototype := ObjectPrototype;
     others := {[ "theme" := JStr "dark" ]} |}.

(** A machine with a configuration for the client [cline] only, where
    neither [uvx] nor [bun] is installed and every download fails. *)
Definition bare (answer : bool) : Machine :=
  {| failing := ["uvx --version"; "bun --version"; uv_curl; uv_wget; uv_powershell;
                 bun_brew; bun_curl; bun_powershell];
     consent := answer;
     typed_key := "typed-key";
     files := {[ "cline" := cline_config ]};
     read_only := false;
     saved_key := Some "saved-key";
     process_env := {[ "HOME" := "/home/dev"; "PATH" := "/usr/bin" ]} |}.

(** The same machine with working downloads. *)
Definition online (answer : bool) : Machine :=
  {| failing := ["uvx --version"; "bun --version"];
     consent := answer;
     typed_key := "typed-key";
     files := {[ "cline" := cline_config ]};
     read_only := false;
     saved_key := None;
     process_env := {[ "HOME" := "/home/dev"; "PATH" := "/usr/bin" ]} |}.

(** A machine whose configuration files are write-protected. *)
Definition locked : Machine :=
  {| failing := []; consent := true; typed_key := "typed-key";
     files := {[ "cline" := cline_config ]};
     read_only := true;
     saved_key := None;
     process_env := ∅ |}.

Definition uvx_connection : ConnectionInfo :=
  {| type := "stdio"; deploymentUrl := Missing;
     stdioFunction := Holding (Some "config => ({ command: 'uvx', args: ['mcp-server-git'] })") |}.

Definition bunx_connection : ConnectionInfo :=
  {| type := "stdio"; deploymentUrl := Missing;
     stdioFunction := Holding (Some "config => ({ command: 'bunx', args: ['some-server'] })") |}.

Definition hosted_connection : ConnectionInfo :=
  {| type := "http"; deploymentUrl := Holding (Some "https://server.smithery.ai/x");
     stdioFunction := Missing |}.

Definition install_amap : InstallServerForClientParams :=
  {| client := "cline"; qualifiedName := "@amap/amap"; serverConfig := amap_stdio |}.

Definition git_server : json :=
  JObj [("command", JStr "uvx"); ("args", JArr [JStr "mcp-server-git"])].

Definition install_git : InstallServerForClientParams :=
  {| client := "cline"; qualifiedName := "@modelcontextprotocol/git";
     serverConfig := git_server |}.

Definition install_for_claude : InstallServerForClientParams :=
  {| client := "claude"; qualifiedName := "git"; serverConfig := git_server |}.

Definition install_proto : InstallServerForClientParams :=
  {| client := "cline"; qualifiedName := "__proto__"; serverConfig := git_server |}.

End Scenario.

(** ** Further readings of a trace *)

(** The texts written with [console.error]. *)
Definition console_errors (tr : list event) : list string :=
  omap (fun e => match e with ConsoleError msg => Some msg | _ => None end) tr.

(** The texts written with [console.warn]. *)
Definition console_warnings (tr : list event) : list string :=
  omap (fun e => match e with ConsoleWarn msg => Some msg | _ => None end) tr.

(** The texts written with [console.log]. *)
Definition console_logs (tr : list event) : list string :=
  omap (fun e => match e with ConsoleLog msg => Some msg | _ => None end) tr.

(** How often a spinner was started, and how often one was stopped
    (by [succeed] or [fail]). *)
Definition spinner_starts (tr : list event) : nat :=
  List.length
    (List.filter (fun e => match e with SpinnerStart _ => true | _ => false end) tr).
Definition spinner_stops (tr : list event) : nat :=
  List.length
    (List.filter (fun e => match e with
                           | SpinnerSucceed _ | SpinnerFail _ => true
                           | _ => false
                           end) tr).

(** Was a confirm question asked. *)
Definition asked_to_confirm (tr : list event) : bool :=
  existsb (fun e => match e with Confirm _ => true | _ => false end) tr.

(** Did the last command that was run succeed. *)
Definition last_command_succeeded (run : list (string * bool)) : bool :=
  match last run with
  | Some (_, ok) => ok
  | None => false
  end.

(** The texts of some messages of the two source files. *)
Definition uv_declined_warning : string :=
  "UV installation was declined. You can install it manually from https://astral.sh/uv".
Definition bun_declined_warning : string :=
  "Bun installation was declined. You can install it manually from https://bun.sh".
Definition save_failed_warning : string :=
  "Warning: Could not save API key to config. You may need to enter it again next time.".
Definition success_message (params : InstallServerForClientParams) : string :=
  qualifiedName params +:+ " successfully installed for " +:+ client params.

(** ** A machine with faults

    The scripted machine again, where the terminal, the settings file
    or the restart of the client can be made to fail. *)

Module Faulty.

Record Faults : Type := mkFaults {
  no_terminal : bool;          (* every prompt throws *)
  settings_unreadable : bool;  (* getApiKey throws *)
  settings_read_only : bool;   (* setApiKey reports success: false *)
  settings_broken : bool;      (* setApiKey throws *)
  restart_fails : bool         (* promptForRestart throws *)
}.

Definition none : Faults := mkFaults false false false false false.
Definition headless : Faults := mkFaults true false false false false.
Definition unreadable_settings : Faults := mkFaults false true false false false.
Definition read_only_settings : Faults := mkFaults false false true false false.
Definition broken_settings : Faults := mkFaults false false false true false.
Definition stuck_restart : Faults := mkFaults false false false false true.

Definition tty_error : exn := ErrorObject "Prompt couldn't be rendered in the current environment".
Definition settings_error : exn := ErrorObject "EIO: settings.json".
Definition restart_error : exn := ThrownValue "restart failed".

Definition machine (f : Faults) (os : string) : Externals Scenario.Machine := {|
  platform := os;
  exec_world := Scenario.run_command;
  confirm_world := fun _ m =>
    if no_terminal f then (Throw tty_error, m) else (Ok (Scenario.consent m), m);
  password_world := fun _ m =>
    if no_terminal f then (Throw tty_error, m) else (Ok (Scenario.typed_key m), m);
  readConfig_world := Scenario.read_file;
  writeConfig_world := Scenario.write_file;
  promptForRestart_world := fun _ m =>
    if restart_fails f then (Throw restart_error, m) else (Ok tt, m);
  getServerName := Scenario.strip_scope;
  getApiKey_world := fun m =>
    if settings_unreadable f then (Throw settings_error, m)
    else (Ok (Scenario.saved_key m), m);
  setApiKey_world := fun key m =>
    if settings_broken f then (Throw settings_error, m)
    else if settings_read_only f then (Ok (mkSaveResult false), m)
    else Scenario.save_key key m;
  getDefaultEnvironment := Scenario.process_env
|}.

(** Neither runtime is installed, curl is missing but wget and
    Homebrew work. *)
Definition without_curl (answer : bool) : Scenario.Machine :=
  {| Scenario.failing := ["uvx --version"; "bun --version"; uv_curl; bun_curl];
     Scenario.consent := answer;
     Scenario.typed_key := "typed-key";
     Scenario.files := {[ "cline" := Scenario.cline_config ]};
     Scenario.read_only := false;
     Scenario.saved_key := None;
     Scenario.process_env := {[ "PATH" := "/usr/bin" ]} |}.


End Faulty.

(** * Properties *)

(** ** String search *)

Lemma startsWith_spec (s p : string) :
  startsWith s p = true <-> exists post, s = p +:+ post.
Proof.
  revert s. induction p as [|a p IH]; intros s; simpl.
  - split; [intros _; exists s; reflexivity | reflexivity].
  - destruct s as [|b s].
    + split; [discriminate | intros [post H]; discriminate].
    + destruct (Ascii.eqb_spec a b) as [->|Hne].
      * rewrite IH. split; intros [post H]; exists post.
        -- simpl. now rewrite H.
        -- simpl in H. now injection H.
      * split; [discriminate | intros [post H]; simpl in H; injection H; congruence].
Qed.

Lemma includes_spec (s needle : string) :
  includes s needle = true <-> contains_substring s needle.
Proof.
  unfold contains_substring.
  induction s as [|b s IH]; simpl.
  - rewrite orb_false_r, startsWith_spec. split.
    + intros [post H]. exists EmptyString, post. exact H.
    + intros [pre [post H]]. destruct pre; [exists post; exact H | discriminate].
  - rewrite orb_true_iff, startsWith_spec, IH. split.
    + intros [[post H] | [pre [post H]]].
      * exists EmptyString, post. exact H.
      * exists (String b pre), post. simpl. now rewrite H.
    + intros [pre [post H]]. destruct pre as [|a pre].
      * left. exists post. exact H.
      * right. simpl in H. injection H as _ H. exists pre, post. exact H.
Qed.

(** ** Classification of connections and servers *)

Lemma stdioFunction_includes_spec (c : ConnectionInfo) (needle : string) :
  stdioFunction_includes c needle = true <->
  exists f, read (stdioFunction c) = Some f /\ contains_substring f needle.
Proof.
  unfold stdioFunction_includes. destruct (read (stdioFunction c)) as [f|].
  - rewrite includes_spec. split.
    + intros H. exists f. split; [reflexivity | exact H].
    + intros [g [Hg H]]. injection Hg as ->. exact H.
  - split; [discriminate | intros [g [Hg _]]; discriminate].
Qed.

Lemma stdio_and_includes_spec (c : ConnectionInfo) (needle : string) :
  String.eqb (type c) "stdio" && stdioFunction_includes c needle = true <->
  type c = "stdio" /\
  exists f, read (stdioFunction c) = Some f /\ contains_substring f needle.
Proof.
  rewrite andb_true_iff, String.eqb_eq, stdioFunction_includes_spec. reflexivity.
Qed.

Lemma isUVRequired_spec (c : ConnectionInfo) :
  isUVRequired c = true <->
  type c = "stdio" /\
  exists f, read (stdioFunction c) = Some f /\ contains_substring f "uvx".
Proof.
  rewrite <- stdio_and_includes_spec. unfold isUVRequired.
  destruct (String.eqb (type c) "stdio" && stdioFunction_includes c "uvx");
    split; congruence.
Qed.

Lemma isBunRequired_spec (c : ConnectionInfo) :
  isBunRequired c = true <->
  type c = "stdio" /\
  exists f, read (stdioFunction c) = Some f /\ contains_substring f "bunx".
Proof.
  rewrite <- stdio_and_includes_spec. unfold isBunRequired.
  destruct (String.eqb (type c) "stdio" && stdioFunction_includes c "bunx");
    split; congruence.
Qed.

(** C4. [isUVRequired] answers true exactly for a stdio connection whose
    [stdioFunction] contains the substring uvx, [isBunRequired] exactly
    for a stdio connection whose [stdioFunction] contains bunx, and a
    connection gets false from both exactly when it is not stdio, has no
    [stdioFunction], or has one containing neither substring. *)
Theorem runtime_required_classification (c : ConnectionInfo) :
  (isUVRequired c = true <->
   type c = "stdio" /\
   exists f, read (stdioFunction c) = Some f /\ contains_substring f "uvx") /\
  (isBunRequired c = true <->
   type c = "stdio" /\
   exists f, read (stdioFunction c) = Some f /\ contains_substring f "bunx") /\
  ((isUVRequired c = false /\ isBunRequired c = false) <->
   (type c <> "stdio" \/
    read (stdioFunction c) = None \/
    exists f, read (stdioFunction c) = Some f /\
              ~ contains_substring f "uvx" /\ ~ contains_substring f "bunx")).
Proof.
  split; [apply isUVRequired_spec | split; [apply isBunRequired_spec |]].
  rewrite <- !not_true_iff_false, isUVRequired_spec, isBunRequired_spec.
  destruct (String.eqb_spec (type c) "stdio") as [Hty|Hty].
  - destruct (read (stdioFunction c)) as [f|] eqn:Hf.
    + split.
      * intros [Hu Hb]. right. right. exists f. split; [reflexivity|].
        split; intros H; [apply Hu | apply Hb]; (split; [exact Hty | exists f; auto]).
      * intros [H | [H | [g [Hg [Hu Hb]]]]]; [contradiction | discriminate |].
        injection Hg as <-.
        split; intros [_ [g [Hg H]]]; injection Hg as <-; auto.
    + split.
      * intros _. right. left. reflexivity.
      * intros _. split; intros [_ [g [Hg _]]]; discriminate.
  - split.
    + intros _. left. exact Hty.
    + intros _. split; intros [H _]; contradiction.
Qed.

Lemma qualifying_connection_spec (conns : list ConnectionInfo) :
  existsb (fun conn => String.eqb (type conn) "http" && has_key (deploymentUrl conn)) conns
  = true <->
  exists conn, In conn conns /\ type conn = "http" /\ has_key (deploymentUrl conn) = true.
Proof.
  rewrite existsb_exists. split; intros [conn [Hin H]]; exists conn; (split; [exact Hin|]).
  - apply andb_true_iff in H. rewrite String.eqb_eq in H. exact H.
  - apply andb_true_iff. rewrite String.eqb_eq. exact H.
Qed.

(** C3. [isRemote] answers true if and only if some connection of the
    server has type http and has the [deploymentUrl] property, and the
    [remote] flag is not the boolean false. An undefined or true flag
    alone is not enough, and a false flag forces the answer false. *)
Theorem isRemote_iff (server : ServerInfo) :
  (isRemote server = true <->
   (exists conn, In conn (connections server) /\
                 type conn = "http" /\ has_key (deploymentUrl conn) = true) /\
   remote server <> Some false) /\
  (isRemote (mkServerInfo [] (remote server)) = false) /\
  (isRemote (mkServerInfo (connections server) (Some false)) = false).
Proof.
  unfold isRemote. split; [|split].
  - rewrite andb_true_iff, qualifying_connection_spec.
    destruct (remote server) as [[|]|]; simpl; split; intros [H1 H2];
      (split; [exact H1|]); congruence.
  - reflexivity.
  - simpl. apply andb_false_r.
Qed.

(** ** Outcomes *)

Lemma res_preceded_by {World A : Type} (evs : list event) (o : outcome World A) :
  res (preceded_by evs o) = res o.
Proof. destruct o; reflexivity. Qed.

Lemma after_preceded_by {World A : Type} (evs : list event) (o : outcome World A) :
  after (preceded_by evs o) = after o.
Proof. destruct o; reflexivity. Qed.

Lemma emitted_preceded_by {World A : Type} (evs : list event) (o : outcome World A) :
  emitted (preceded_by evs o) = (evs ++ emitted o)%list.
Proof. destruct o; reflexivity. Qed.

(** Unfold one run of the monad down to the imported calls. *)
Ltac unfold_run :=
  unfold mbind, mret, M_mbind, M_mret, M_bind, M_ret, try_catch, external, emit;
  cbn -[truthy].

(** ** Installing a server for a client *)

Section InstallProperties.
Context {World : Type} {E : Externals World}.

(** The run of [installServerForClient] when the configuration can be
    read: everything up to and including the call of [writeConfig]. *)
Lemma install_run_after_read (params : InstallServerForClientParams) (w w1 : World)
    (config : ClientConfig) :
  readConfig_world (client params) w = (Ok config, w1) ->
  let written :=
    assign_mcpServer config (getServerName (qualifiedName params)) (serverConfig params) in
  let o := installServerForClient params w in
  written_configs (emitted o) = [(written, client params)] /\
  match writeConfig_world written (client params) w1 with
  | (Throw e, w2) =>
      res o = Throw e /\ after o = w2 /\
      ~ In (PromptForRestart (client params)) (emitted o)
  | (Ok _, w2) =>
      res o = fst (promptForRestart_world (client params) w2) /\
      after o = snd (promptForRestart_world (client params) w2)
  end.
Proof.
  intros Hread written o. subst o written.
  unfold installServerForClient, readConfig, writeConfig, promptForRestart,
    verbose, console_log.
  unfold_run. rewrite Hread. cbn.
  destruct (writeConfig_world _ _ w1) as [[[]|e] w2]; cbn.
  - destruct (promptForRestart_world _ w2) as [[[]|e] w3]; cbn; auto.
  - split; [reflexivity|]. split; [reflexivity|]. split; [reflexivity|].
    intros H. repeat (destruct H as [H|H]; [discriminate|]). exact H.
Qed.

(** The run of [installServerForClient] when [readConfig] throws. *)
Lemma install_run_read_fails (params : InstallServerForClientParams) (w w1 : World)
    (e : exn) :
  readConfig_world (client params) w = (Throw e, w1) ->
  installServerForClient params w =
  mkOutcome (Throw e) w1
    [Verbose ("Reading configuration for client: " +:+ client params);
     ReadConfig (client params)].
Proof.
  intros Hread.
  unfold installServerForClient, readConfig, verbose.
  unfold_run. rewrite Hread. reflexivity.
Qed.

(** An assignment that does not run the setter writes the own property
    and nothing else. *)
Lemma assign_mcpServer_writes (config : ClientConfig) (name : string) (v : json) :
  runs_proto_setter config name = false ->
  assign_mcpServer config name v =
  {| mcpServers := <[name := v]> (mcpServers config);
     mcpServers_prototype := mcpServers_prototype config;
     others := others config |}.
Proof. intros Hrun. unfold assign_mcpServer. rewrite Hrun. reflexivity. Qed.

Lemma ordinary_name_runs_no_setter (config : ClientConfig) (name : string) :
  name <> "__proto__" -> runs_proto_setter config name = false.
Proof.
  intros Hname. unfold runs_proto_setter.
  destruct (String.eqb_spec name "__proto__"); [contradiction | reflexivity].
Qed.

(** On an object that comes from [JSON.parse] and has no key [__proto__]
    of its own, assigning to [__proto__] runs the setter. *)
Lemma proto_name_runs_setter (config : ClientConfig) :
  mcpServers config !! "__proto__" = None ->
  mcpServers_prototype config = ObjectPrototype ->
  runs_proto_setter config "__proto__" = true.
Proof.
  intros Hkey Hproto. unfold runs_proto_setter. rewrite Hkey, Hproto. reflexivity.
Qed.

Lemma assign_mcpServer_proto_keeps_keys (config : ClientConfig) (v : json) :
  runs_proto_setter config "__proto__" = true ->
  mcpServers (assign_mcpServer config "__proto__" v) = mcpServers config /\
  others (assign_mcpServer config "__proto__" v) = others config /\
  mcpServers_prototype (assign_mcpServer config "__proto__" v)
  = default (mcpServers_prototype config) (as_prototype v).
Proof.
  intros Hrun. unfold assign_mcpServer. rewrite Hrun.
  destruct (as_prototype v); repeat split.
Qed.

(** C1, what the code does for the name [__proto__]. When the normalized
    name is [__proto__] and the [mcpServers] object that was read has no
    such key, the configuration handed to [writeConfig] has the own
    properties that were read and still no entry under the name: the
    supplied server configuration is not written. *)
Theorem install_proto_name_writes_no_entry (params : InstallServerForClientParams)
    (w w1 : World) (config : ClientConfig) :
  readConfig_world (client params) w = (Ok config, w1) ->
  getServerName (qualifiedName params) = "__proto__" ->
  mcpServers config !! "__proto__" = None ->
  mcpServers_prototype config = ObjectPrototype ->
  exists written,
    written_configs (emitted (installServerForClient params w))
    = [(written, client params)] /\
    mcpServers written = mcpServers config /\
    mcpServers written !! getServerName (qualifiedName params) = None.
Proof.
  intros Hread Hname Hkey Hproto.
  destruct (install_run_after_read params w w1 config Hread) as [Hw _].
  eexists. split; [exact Hw|]. rewrite Hname.
  destruct (assign_mcpServer_proto_keeps_keys config (serverConfig params)
              (proto_name_runs_setter config Hkey Hproto)) as [Hsame _].
  rewrite Hsame. split; [reflexivity | exact Hkey].
Qed.

(** C2, what the code does for the name [__proto__]. When the normalized
    name is [__proto__] and the [mcpServers] object that was read has no
    such key, the configuration handed to [writeConfig] has the same
    keys as the one read, so no key is added; what changes is what the
    [mcpServers] object inherits from, which becomes the supplied server
    configuration when that is an object or [null]. *)
Theorem install_proto_name_adds_no_key (params : InstallServerForClientParams)
    (w w1 : World) (config : ClientConfig) :
  readConfig_world (client params) w = (Ok config, w1) ->
  getServerName (qualifiedName params) = "__proto__" ->
  mcpServers config !! "__proto__" = None ->
  mcpServers_prototype config = ObjectPrototype ->
  exists written,
    written_configs (emitted (installServerForClient params w))
    = [(written, client params)] /\
    dom (mcpServers written) = dom (mcpServers config) /\
    size (mcpServers written) = size (mcpServers config) /\
    others written = others config /\
    mcpServers_prototype written
    = default ObjectPrototype (as_prototype (serverConfig params)).
Proof.
  intros Hread Hname Hkey Hproto.
  destruct (install_run_after_read params w w1 config Hread) as [Hw _].
  eexists. split; [exact Hw|]. rewrite Hname.
  destruct (assign_mcpServer_proto_keeps_keys config (serverConfig params)
              (proto_name_runs_setter config Hkey Hproto)) as [Hsame [Hothers Hp]].
  rewrite Hsame, Hothers, Hp, Hproto. repeat split.
Qed.

(** C8. An error thrown by [readConfig] is the result of
    [installServerForClient], nothing is handed to [writeConfig] and the
    world is left as [readConfig] left it; an error thrown by
    [writeConfig] is likewise the result. *)
Theorem install_propagates_io_errors (params : InstallServerForClientParams) (w : World) :
  (forall e w1,
     readConfig_world (client params) w = (Throw e, w1) ->
     let o := installServerForClient params w in
     res o = Throw e /\ after o = w1 /\ written_configs (emitted o) = []) /\
  (forall config w1 e w2,
     readConfig_world (client params) w = (Ok config, w1) ->
     writeConfig_world
       (assign_mcpServer config (getServerName (qualifiedName params)) (serverConfig params))
       (client params) w1 = (Throw e, w2) ->
     let o := installServerForClient params w in
     res o = Throw e /\ after o = w2 /\
     ~ In (PromptForRestart (client params)) (emitted o)).
Proof.
  split.
  - intros e w1 Hread o. subst o.
    rewrite (install_run_read_fails params w w1 e Hread). auto.
  - intros config w1 e w2 Hread Hwrite o. subst o.
    destruct (install_run_after_read params w w1 config Hread) as [_ H].
    rewrite Hwrite in H. exact H.
Qed.

End InstallProperties.

(** ** API keys and the runtime environment *)

Section RuntimeProperties.
Context {World : Type} {E : Externals World}.

Lemma truthy_nonempty (k : string) : k <> EmptyString -> truthy (Some k) = Some k.
Proof.
  intros Hk. unfold truthy. destruct (String.eqb_spec k EmptyString); congruence.
Qed.

Lemma truthy_None_iff (s : option string) :
  truthy s = None <-> s = None \/ s = Some EmptyString.
Proof.
  destruct s as [k|]; simpl.
  - destruct (String.eqb_spec k EmptyString) as [->|Hk].
    + split; auto.
    + split; [discriminate | intros [H|H]; congruence].
  - split; auto.
Qed.

(** C5. Given a non-empty key, [ensureApiKey] returns that key, emits no
    event (so it calls neither [setApiKey] nor anything else) and leaves
    the world, saved key included, as it found it. *)
Theorem ensureApiKey_supplied_key (k : string) (w : World) :
  k <> EmptyString ->
  ensureApiKey (Some k) w = mkOutcome (Ok k) w [] /\
  saved_keys (emitted (ensureApiKey (Some k) w)) = [].
Proof.
  intros Hk. unfold ensureApiKey. rewrite (truthy_nonempty k Hk). split; reflexivity.
Qed.

(** Without a usable argument the first thing [ensureApiKey] does is to
    call [getApiKey]. *)
Lemma ensureApiKey_asks_config_first (w : World) :
  exists rest, emitted (ensureApiKey None w) = GetApiKey :: rest.
Proof.
  unfold ensureApiKey, getApiKey. cbn [truthy]. unfold_run.
  destruct (getApiKey_world w) as [[saved|e] w1]; cbn -[truthy]; [|eauto].
  destruct (truthy saved); cbn; [eauto|].
  rewrite emitted_preceded_by. cbn. eauto.
Qed.

Lemma ensureApiKey_uses_saved_key (w w1 : World) (saved : string) :
  getApiKey_world w = (Ok (Some saved), w1) -> saved <> EmptyString ->
  ensureApiKey None w = mkOutcome (Ok saved) w1 [GetApiKey].
Proof.
  intros Hget Hs. unfold ensureApiKey, getApiKey. cbn [truthy]. unfold_run.
  rewrite Hget. cbn -[truthy]. rewrite (truthy_nonempty saved Hs). reflexivity.
Qed.

Lemma ensureApiKey_asks_user_iff (w : World) :
  asked_for_key (emitted (ensureApiKey None w)) = true <->
  exists saved w1, getApiKey_world w = (Ok saved, w1) /\
                   (saved = None \/ saved = Some EmptyString).
Proof.
  unfold ensureApiKey, getApiKey, promptForApiKey, inquirer_password, setApiKey,
    console_warn.
  cbn [truthy]. unfold_run.
  destruct (getApiKey_world w) as [[saved|e] w1]; cbn -[truthy].
  - destruct (truthy saved) as [k|] eqn:Htr; cbn.
    + split; [discriminate|]. intros [s [w' [[= <- <-] Hs]]].
      apply truthy_None_iff in Hs. congruence.
    + apply truthy_None_iff in Htr.
      destruct (password_world _ w1) as [[typed|e] w2]; cbn;
        [destruct (setApiKey_world typed w2) as [[[[|]]|e] w3]; cbn|];
        (split; [intros _; eauto | reflexivity]).
  - split; [discriminate|]. intros [s [w' [[=] _]]].
Qed.

(** C9. The empty string given as key is treated like no key at all:
    both runs are the same run, which first asks [getApiKey]; a non-empty
    saved key is returned without asking the user, and the user is asked
    for a key exactly when [getApiKey] returned no key or an empty one.
    The argument is returned as it is exactly when it is not empty. *)
Theorem ensureApiKey_empty_is_absent (w : World) :
  ensureApiKey (Some EmptyString) w = ensureApiKey None w /\
  (exists rest, emitted (ensureApiKey None w) = GetApiKey :: rest) /\
  (forall saved w1,
     getApiKey_world w = (Ok (Some saved), w1) -> saved <> EmptyString ->
     ensureApiKey None w = mkOutcome (Ok saved) w1 [GetApiKey]) /\
  (asked_for_key (emitted (ensureApiKey None w)) = true <->
   exists saved w1, getApiKey_world w = (Ok saved, w1) /\
                    (saved = None \/ saved = Some EmptyString)) /\
  (forall k, ensureApiKey (Some k) w = mkOutcome (Ok k) w [] <-> k <> EmptyString).
Proof.
  split; [reflexivity|].
  split; [apply ensureApiKey_asks_config_first|].
  split; [intros saved w1; apply ensureApiKey_uses_saved_key|].
  split; [apply ensureApiKey_asks_user_iff|].
  intros k. split.
  - intros Hrun ->. destruct (ensureApiKey_asks_config_first w) as [rest Hrest].
    change (ensureApiKey (Some EmptyString) w) with (ensureApiKey None w) in Hrun.
    rewrite Hrun in Hrest. discriminate.
  - intros Hk. unfold ensureApiKey. rewrite (truthy_nonempty k Hk). reflexivity.
Qed.

(** C10. The runtime environment has exactly the keys of the default
    environment and of [baseEnv]; a key of [baseEnv] keeps the value
    [baseEnv] gives it and any other key has its default value; with an
    empty or omitted [baseEnv] the result is the default environment. *)
Theorem getRuntimeEnvironment_merge (baseEnv : gmap string string) (w : World) :
  let env := getRuntimeEnvironment (Some baseEnv) w in
  dom env = dom (getDefaultEnvironment w) ∪ dom baseEnv /\
  (forall k, env !! k =
             match baseEnv !! k with
             | Some v => Some v
             | None => getDefaultEnvironment w !! k
             end) /\
  getRuntimeEnvironment (Some ∅) w = getDefaultEnvironment w /\
  getRuntimeEnvironment None w = getDefaultEnvironment w.
Proof.
  unfold getRuntimeEnvironment. cbn.
  split; [rewrite dom_union_L; apply (comm_L (∪))|].
  split; [|split; apply (left_id_L ∅ (∪))].
  intros k. rewrite lookup_union.
  destruct (baseEnv !! k), (getDefaultEnvironment w !! k); reflexivity.
Qed.

End RuntimeProperties.

(** ** Installing the prerequisites *)

Section PrerequisiteProperties.
Context {World : Type} {E : Externals World}.

Ltac unfold_installers :=
  unfold promptForUVInstall, promptForBunInstall, checkUVInstalled, checkBunInstalled,
    inquirer_confirm, execAsync, console_warn, console_log, console_error,
    spinner_start, spinner_succeed, spinner_fail, verbose.

(** The commands [promptForUVInstall] runs once the user has agreed. *)
Lemma promptForUVInstall_commands (w w1 : World) :
  confirm_world uv_question w = (Ok true, w1) ->
  executed (emitted (promptForUVInstall w)) =
  if String.eqb platform "win32" then
    [(uv_powershell, succeeded (fst (exec_world uv_powershell w1)))]
  else if succeeded (fst (exec_world uv_curl w1)) then
    [(uv_curl, true)]
  else
    [(uv_curl, false);
     (uv_wget, succeeded (fst (exec_world uv_wget (snd (exec_world uv_curl w1)))))].
Proof.
  unfold uv_question. intros Hyes. unfold_installers. unfold_run. rewrite Hyes. cbn.
  destruct (String.eqb platform "win32").
  - destruct (exec_world uv_powershell w1) as [[[]|e] w2]; reflexivity.
  - destruct (exec_world uv_curl w1) as [[[]|e] w2]; cbn; [reflexivity|].
    destruct (exec_world uv_wget w2) as [[[]|e'] w3]; reflexivity.
Qed.

(** The commands [promptForBunInstall] runs once the user has agreed. *)
Lemma promptForBunInstall_commands (w w1 : World) :
  confirm_world bun_question w = (Ok true, w1) ->
  executed (emitted (promptForBunInstall w)) =
  if String.eqb platform "win32" then
    [(bun_powershell, succeeded (fst (exec_world bun_powershell w1)))]
  else if succeeded (fst (exec_world bun_brew w1)) then
    [(bun_brew, true)]
  else
    [(bun_brew, false);
     (bun_curl, succeeded (fst (exec_world bun_curl (snd (exec_world bun_brew w1)))))].
Proof.
  unfold bun_question. intros Hyes. unfold_installers. unfold_run. rewrite Hyes. cbn.
  destruct (String.eqb platform "win32").
  - destruct (exec_world bun_powershell w1) as [[[]|e] w2]; reflexivity.
  - destruct (exec_world bun_brew w1) as [[[]|e] w2]; cbn; [reflexivity|].
    destruct (exec_world bun_curl w2) as [[[]|e'] w3]; reflexivity.
Qed.

(** C6, as the code has it. After the user has agreed,
    [promptForUVInstall] runs, on Windows, the PowerShell command that
    fetches and executes the install script of astral.sh, and elsewhere
    the curl download of that site's script piped to sh, followed by
    the wget download piped to sh exactly when curl failed;
    [promptForBunInstall] runs, on Windows, the PowerShell command that
    fetches and executes the install script of bun.sh, and elsewhere
    brew install oven-sh/bun/bun, followed by the curl download of the
    bun.sh script piped to bash exactly when Homebrew failed. Nothing
    else is run. *)
Theorem install_command_selection (wu wu1 wb wb1 : World) :
  confirm_world uv_question wu = (Ok true, wu1) ->
  confirm_world bun_question wb = (Ok true, wb1) ->
  let quote := String (ascii_of_nat 34) EmptyString in
  let uv_script :=
    "powershell -ExecutionPolicy ByPass -c " +:+ quote +:+
    "irm https://astral.sh/uv/install.ps1 | iex" +:+ quote in
  let uv_download := "curl -LsSf https://astral.sh/uv/install.sh | sh" in
  let uv_fallback := "wget -qO- https://astral.sh/uv/install.sh | sh" in
  let bun_script := "powershell -c " +:+ quote +:+ "irm bun.sh/install.ps1|iex" +:+ quote in
  let bun_homebrew := "brew install oven-sh/bun/bun" in
  let bun_fallback := "curl -fsSL https://bun.sh/install | bash" in
  let ran_for_uv := executed (emitted (promptForUVInstall wu)) in
  let ran_for_bun := executed (emitted (promptForBunInstall wb)) in
  ran_for_uv =
    (if String.eqb platform "win32" then
       [(uv_script, succeeded (fst (exec_world uv_script wu1)))]
     else if succeeded (fst (exec_world uv_download wu1)) then
       [(uv_download, true)]
     else
       [(uv_download, false);
        (uv_fallback,
         succeeded (fst (exec_world uv_fallback (snd (exec_world uv_download wu1)))))]) /\
  ran_for_bun =
    (if String.eqb platform "win32" then
       [(bun_script, succeeded (fst (exec_world bun_script wb1)))]
     else if succeeded (fst (exec_world bun_homebrew wb1)) then
       [(bun_homebrew, true)]
     else
       [(bun_homebrew, false);
        (bun_fallback,
         succeeded (fst (exec_world bun_fallback (snd (exec_world bun_homebrew wb1)))))]) /\
  spec_install_selection platform ran_for_uv = true /\
  brew_install_selection platform ran_for_bun = true.
Proof.
  intros Hu Hb quote uv_script uv_download uv_fallback bun_script bun_homebrew
    bun_fallback ran_for_uv ran_for_bun.
  subst ran_for_uv ran_for_bun.
  rewrite (promptForUVInstall_commands wu wu1 Hu), (promptForBunInstall_commands wb wb1 Hb).
  change uv_powershell with uv_script. change uv_curl with uv_download.
  change uv_wget with uv_fallback. change bun_powershell with bun_script.
  change bun_brew with bun_homebrew. change bun_curl with bun_fallback.
  split; [reflexivity|]. split; [reflexivity|].
  unfold spec_install_selection, brew_install_selection.
  destruct (String.eqb platform "win32").
  - split; reflexivity.
  - split.
    + destruct (succeeded (fst (exec_world uv_download wu1))); reflexivity.
    + destruct (succeeded (fst (exec_world bun_homebrew wb1))); reflexivity.
Qed.

Lemma ensureUVInstalled_declined (c : ConnectionInfo) (w w1 : World) :
  isUVRequired c = true -> command_fails "uvx --version" w w1 ->
  declines uv_question w1 ->
  res (ensureUVInstalled c w) = Ok tt /\
  last (emitted (ensureUVInstalled c w)) = Some (ConsoleWarn uv_warning).
Proof.
  unfold uv_question. intros Hreq [e Hcheck] [w2 Hno].
  unfold ensureUVInstalled. rewrite Hreq. unfold_installers. unfold_run.
  rewrite Hcheck. cbn. rewrite Hno. cbn. split; reflexivity.
Qed.

Lemma ensureUVInstalled_install_failed (c : ConnectionInfo) (w w1 : World) :
  isUVRequired c = true -> command_fails "uvx --version" w w1 ->
  uv_install_fails w1 ->
  res (ensureUVInstalled c w) = Ok tt /\
  last (emitted (ensureUVInstalled c w)) = Some (ConsoleWarn uv_warning).
Proof.
  unfold uv_install_fails, uv_question. intros Hreq [e Hcheck] [w2 [Hyes Hfail]].
  unfold ensureUVInstalled. rewrite Hreq. unfold_installers. unfold_run.
  rewrite Hcheck. cbn. rewrite Hyes. cbn.
  destruct (String.eqb platform "win32").
  - destruct Hfail as [w3 [e1 H1]]. rewrite H1. cbn. split; reflexivity.
  - destruct Hfail as [w3 [w4 [[e1 H1] [e2 H2]]]]. rewrite H1. cbn. rewrite H2. cbn.
    split; reflexivity.
Qed.

Lemma ensureBunInstalled_declined (c : ConnectionInfo) (w w1 : World) :
  isBunRequired c = true -> command_fails "bun --version" w w1 ->
  declines bun_question w1 ->
  res (ensureBunInstalled c w) = Ok tt /\
  last (emitted (ensureBunInstalled c w)) = Some (ConsoleWarn bun_warning).
Proof.
  unfold bun_question. intros Hreq [e Hcheck] [w2 Hno].
  unfold ensureBunInstalled. rewrite Hreq. unfold_installers. unfold_run.
  rewrite Hcheck. cbn. rewrite Hno. cbn. split; reflexivity.
Qed.

Lemma ensureBunInstalled_install_failed (c : ConnectionInfo) (w w1 : World) :
  isBunRequired c = true -> command_fails "bun --version" w w1 ->
  bun_install_fails w1 ->
  res (ensureBunInstalled c w) = Ok tt /\
  last (emitted (ensureBunInstalled c w)) = Some (ConsoleWarn bun_warning).
Proof.
  unfold bun_install_fails, bun_question. intros Hreq [e Hcheck] [w2 [Hyes Hfail]].
  unfold ensureBunInstalled. rewrite Hreq. unfold_installers. unfold_run.
  rewrite Hcheck. cbn. rewrite Hyes. cbn.
  destruct (String.eqb platform "win32").
  - destruct Hfail as [w3 [e1 H1]]. rewrite H1. cbn. split; reflexivity.
  - destruct Hfail as [w3 [w4 [[e1 H1] [e2 H2]]]]. rewrite H1. cbn. rewrite H2. cbn.
    split; reflexivity.
Qed.

(** C7. When the runtime a connection requires does not answer its
    version check and the user declines the installation or every
    install command fails, [ensureUVInstalled] and [ensureBunInstalled]
    return normally, and the last thing they do is to warn that the
    server might fail to launch. *)
Theorem ensure_installed_absorbs_failure (c : ConnectionInfo) (w w1 : World) :
  (isUVRequired c = true -> command_fails "uvx --version" w w1 ->
   declines uv_question w1 \/ uv_install_fails w1 ->
   res (ensureUVInstalled c w) = Ok tt /\
   last (emitted (ensureUVInstalled c w)) = Some (ConsoleWarn uv_warning)) /\
  (isBunRequired c = true -> command_fails "bun --version" w w1 ->
   declines bun_question w1 \/ bun_install_fails w1 ->
   res (ensureBunInstalled c w) = Ok tt /\
   last (emitted (ensureBunInstalled c w)) = Some (ConsoleWarn bun_warning)).
Proof.
  split; intros Hreq Hcheck [Hno | Hfail].
  - apply (ensureUVInstalled_declined c w w1); assumption.
  - apply (ensureUVInstalled_install_failed c w w1); assumption.
  - apply (ensureBunInstalled_declined c w w1); assumption.
  - apply (ensureBunInstalled_install_failed c w w1); assumption.
Qed.

End PrerequisiteProperties.

(** ** Runs on the scripted machine *)

Example includes_finds_inner_substring :
  includes "npx -y uvx-runner" "uvx" = true /\ includes "npx -y some-server" "uvx" = false.
Proof. split; reflexivity. Qed.

Example bunx_connection_needs_bun_only :
  isUVRequired Scenario.bunx_connection = false /\
  isBunRequired Scenario.bunx_connection = true.
Proof. split; reflexivity. Qed.

Example hosted_connection_needs_no_runtime :
  isUVRequired Scenario.hosted_connection = false /\
  isBunRequired Scenario.hosted_connection = false.
Proof. split; reflexivity. Qed.

Example isRemote_hosted :
  isRemote (mkServerInfo [Scenario.uvx_connection; Scenario.hosted_connection] None) = true /\
  isRemote (mkServerInfo [Scenario.hosted_connection] (Some false)) = false /\
  isRemote (mkServerInfo [Scenario.uvx_connection] (Some true)) = false.
Proof. repeat split; reflexivity. Qed.

(** The [in] test only asks for the key. *)
Example isRemote_key_without_value :
  isRemote (mkServerInfo [mkConnectionInfo "http" (Holding None) Missing] None) = true.
Proof. reflexivity. Qed.

Example ensureUVInstalled_offline_trace :
  emitted (ensureUVInstalled (E := Scenario.machine "linux")
             Scenario.uvx_connection (Scenario.bare true))
  = [Verbose "UV installation check required";
     Exec "uvx --version" false;
     Confirm uv_question;
     SpinnerStart "Installing UV package manager...";
     Exec uv_curl false;
     Exec uv_wget false;
     SpinnerFail "Failed to install UV. You can install it manually from https://astral.sh/uv";
     ConsoleWarn uv_warning].
Proof. vm_compute. reflexivity. Qed.

Example ensureBunInstalled_windows_trace :
  emitted (ensureBunInstalled (E := Scenario.machine "win32")
             Scenario.bunx_connection (Scenario.online true))
  = [Verbose "Bun installation check required";
     Exec "bun --version" false;
     Confirm bun_question;
     ConsoleLog "Installing Bun...";
     Exec bun_powershell true;
     ConsoleLog "Bun installed successfully!"].
Proof. vm_compute. reflexivity. Qed.

Example installServerForClient_trace :
  emitted (installServerForClient (E := Scenario.machine "linux")
             Scenario.install_git (Scenario.online true))
  = [Verbose "Reading configuration for client: cline";
     ReadConfig "cline";
     Verbose "Normalizing server ID...";
     Verbose "Normalized server ID: git";
     Verbose "Updating client configuration...";
     Verbose "Writing updated configuration...";
     WriteConfig (assign_mcpServer Scenario.cline_config "git" Scenario.git_server) "cline";
     Verbose "Configuration successfully written";
     ConsoleLog "@modelcontextprotocol/git successfully installed for cline";
     Verbose "Prompting for client restart...";
     PromptForRestart "cline";
     Verbose "Installation process completed"].
Proof. vm_compute. reflexivity. Qed.

Example ensureApiKey_prompts_and_saves :
  let o := ensureApiKey (E := Scenario.machine "linux") None (Scenario.online true) in
  res o = Ok "typed-key" /\
  Scenario.saved_key (after o) = Some "typed-key" /\
  saved_keys (emitted o) = ["typed-key"].
Proof. vm_compute. repeat split. Qed.

(** Assignments to the key [__proto__]. *)

(** Without a key of its own the object gets a new prototype and no
    property; a value that is neither an object nor [null] changes
    nothing at all. *)
Example assign_proto_sets_prototype :
  assign_mcpServer Scenario.cline_config "__proto__" Scenario.amap_sse
  = {| mcpServers := mcpServers Scenario.cline_config;
       mcpServers_prototype := PlainObject [("url", JStr "https://mcp.amap.com/sse")];
       others := others Scenario.cline_config |} /\
  assign_mcpServer Scenario.cline_config "__proto__" (JStr "x") = Scenario.cline_config /\
  assign_mcpServer Scenario.cline_config "__proto__" JUndefined = Scenario.cline_config.
Proof. repeat split; vm_compute; reflexivity. Qed.

(** A key [__proto__] of the object's own, as [JSON.parse] creates it,
    is an ordinary property and is overwritten. *)
Example assign_proto_overwrites_own_key :
  mcpServers
    (assign_mcpServer
       {| mcpServers := {[ "__proto__" := JNum 1 ]};
          mcpServers_prototype := ObjectPrototype;
          others := ∅ |}
       "__proto__" Scenario.amap_sse)
  !! "__proto__" = Some Scenario.amap_sse.
Proof. vm_compute. reflexivity. Qed.

(** An object that inherits from nothing, or from an object with a key
    [__proto__] of its own, has no setter to run: the key is created. *)
Example assign_proto_without_accessor :
  mcpServers
    (assign_mcpServer
       {| mcpServers := ∅; mcpServers_prototype := NullPrototype; others := ∅ |}
       "__proto__" Scenario.amap_sse)
  !! "__proto__" = Some Scenario.amap_sse /\
  mcpServers
    (assign_mcpServer
       {| mcpServers := ∅;
          mcpServers_prototype := PlainObject [("__proto__", JNull)];
          others := ∅ |}
       "__proto__" Scenario.amap_sse)
  !! "__proto__" = Some Scenario.amap_sse.
Proof. split; vm_compute; reflexivity. Qed.

(** Names that [Object.prototype] has as methods are written like any
    other name. *)
Example assign_inherited_method_name :
  mcpServers (assign_mcpServer Scenario.cline_config "toString" Scenario.amap_sse)
  !! "toString" = Some Scenario.amap_sse.
Proof. vm_compute. reflexivity. Qed.

(** ** Instances of the theorems *)

(** Installing a server under the name [__proto__] for cline: the two
    servers that were there are written back, nothing is stored under
    the name, and the success line is printed all the same. *)
Lemma install_proto_name_writes_no_entry_witness :
  (exists written,
     written_configs
       (emitted (installServerForClient (E := Scenario.machine "linux")
                   Scenario.install_proto (Scenario.online true)))
     = [(written, "cline")] /\
     mcpServers written = mcpServers Scenario.cline_config /\
     mcpServers written !! "__proto__" = None) /\
  res (installServerForClient (E := Scenario.machine "linux")
         Scenario.install_proto (Scenario.online true)) = Ok tt /\
  console_logs (emitted (installServerForClient (E := Scenario.machine "linux")
                           Scenario.install_proto (Scenario.online true)))
  = ["__proto__ successfully installed for cline"].
Proof.
  split.
  - apply (install_proto_name_writes_no_entry (E := Scenario.machine "linux")
             Scenario.install_proto (Scenario.online true) (Scenario.online true)
             Scenario.cline_config);
      vm_compute; reflexivity.
  - split; vm_compute; reflexivity.
Defined.

(** The same install: still two keys, and the [mcpServers] object now
    inherits from the supplied server configuration. *)
Lemma install_proto_name_adds_no_key_witness :
  exists written,
    written_configs
      (emitted (installServerForClient (E := Scenario.machine "linux")
                  Scenario.install_proto (Scenario.online true)))
    = [(written, "cline")] /\
    dom (mcpServers written) = dom (mcpServers Scenario.cline_config) /\
    size (mcpServers written) = 2 /\
    others written = others Scenario.cline_config /\
    mcpServers_prototype written
    = PlainObject [("command", JStr "uvx"); ("args", JArr [JStr "mcp-server-git"])].
Proof.
  apply (install_proto_name_adds_no_key (E := Scenario.machine "linux")
           Scenario.install_proto (Scenario.online true) (Scenario.online true)
           Scenario.cline_config);
    vm_compute; reflexivity.
Defined.

(** There is no configuration file for claude, and the one of cline
    cannot be written on the locked machine. *)
Lemma install_propagates_io_errors_witness :
  (let o := installServerForClient (E := Scenario.machine "linux")
              Scenario.install_for_claude (Scenario.online true) in
   res o = Throw (ErrorObject "ENOENT: claude") /\
   after o = Scenario.online true /\
   written_configs (emitted o) = []) /\
  (let o := installServerForClient (E := Scenario.machine "linux")
              Scenario.install_git Scenario.locked in
   res o = Throw (ErrorObject "EACCES: cline") /\
   after o = Scenario.locked /\
   ~ In (PromptForRestart "cline") (emitted o)).
Proof.
  split.
  - apply (proj1 (install_propagates_io_errors (E := Scenario.machine "linux")
                    Scenario.install_for_claude (Scenario.online true))).
    vm_compute. reflexivity.
  - apply (proj2 (install_propagates_io_errors (E := Scenario.machine "linux")
                    Scenario.install_git Scenario.locked)
             Scenario.cline_config Scenario.locked).
    + vm_compute. reflexivity.
    + vm_compute. reflexivity.
Defined.

(** A key given on the command line is returned although another key is
    saved, and the saved one stays. *)
Lemma ensureApiKey_supplied_key_witness :
  ensureApiKey (E := Scenario.machine "linux") (Some "cli-key") (Scenario.bare true)
  = mkOutcome (Ok "cli-key") (Scenario.bare true) [] /\
  saved_keys (emitted (ensureApiKey (E := Scenario.machine "linux")
                         (Some "cli-key") (Scenario.bare true))) = [].
Proof.
  apply (ensureApiKey_supplied_key (E := Scenario.machine "linux")
           "cli-key" (Scenario.bare true)).
  discriminate.
Defined.

(** An empty key on the command line yields the saved key. *)
Lemma ensureApiKey_empty_is_absent_witness :
  ensureApiKey (E := Scenario.machine "linux") (Some EmptyString) (Scenario.bare true)
  = mkOutcome (Ok "saved-key") (Scenario.bare true) [GetApiKey].
Proof.
  destruct (ensureApiKey_empty_is_absent (E := Scenario.machine "linux")
              (Scenario.bare true)) as [Hsame [_ [Hsaved _]]].
  rewrite Hsame. apply Hsaved; [reflexivity | discriminate].
Defined.

(** On Linux, with Homebrew and curl both failing, [promptForBunInstall]
    runs the Homebrew command and then curl, and never wget: not the
    selection the specification describes. *)
Lemma bun_install_selection_counterexample :
  confirm_world (Externals := Scenario.machine "linux") bun_question (Scenario.bare true)
  = (Ok true, Scenario.bare true) /\
  executed (emitted (promptForBunInstall (E := Scenario.machine "linux")
                       (Scenario.bare true)))
  = [(bun_brew, false); (bun_curl, false)] /\
  spec_install_selection "linux"
    (executed (emitted (promptForBunInstall (E := Scenario.machine "linux")
                          (Scenario.bare true))))
  = false.
Proof. vm_compute. repeat split. Qed.

(** The same machine: curl then wget for UV, Homebrew then curl for Bun. *)
Lemma install_command_selection_witness :
  executed (emitted (promptForUVInstall (E := Scenario.machine "linux")
                       (Scenario.bare true)))
  = [("curl -LsSf https://astral.sh/uv/install.sh | sh", false);
     ("wget -qO- https://astral.sh/uv/install.sh | sh", false)] /\
  executed (emitted (promptForBunInstall (E := Scenario.machine "linux")
                       (Scenario.bare true)))
  = [("brew install oven-sh/bun/bun", false);
     ("curl -fsSL https://bun.sh/install | bash", false)] /\
  spec_install_selection "linux"
    (executed (emitted (promptForUVInstall (E := Scenario.machine "linux")
                          (Scenario.bare true)))) = true /\
  brew_install_selection "linux"
    (executed (emitted (promptForBunInstall (E := Scenario.machine "linux")
                          (Scenario.bare true)))) = true.
Proof.
  apply (install_command_selection (E := Scenario.machine "linux")
           (Scenario.bare true) (Scenario.bare true)
           (Scenario.bare true) (Scenario.bare true));
    reflexivity.
Defined.

(** The user declines the UV installation; the user accepts the Bun
    installation but Homebrew and curl both fail. *)
Lemma ensure_installed_absorbs_failure_witness :
  (res (ensureUVInstalled (E := Scenario.machine "linux")
          Scenario.uvx_connection (Scenario.bare false)) = Ok tt /\
   last (emitted (ensureUVInstalled (E := Scenario.machine "linux")
                    Scenario.uvx_connection (Scenario.bare false)))
   = Some (ConsoleWarn uv_warning)) /\
  (res (ensureBunInstalled (E := Scenario.machine "linux")
          Scenario.bunx_connection (Scenario.bare true)) = Ok tt /\
   last (emitted (ensureBunInstalled (E := Scenario.machine "linux")
                    Scenario.bunx_connection (Scenario.bare true)))
   = Some (ConsoleWarn bun_warning)).
Proof.
  split.
  - apply (proj1 (ensure_installed_absorbs_failure (E := Scenario.machine "linux")
                    Scenario.uvx_connection (Scenario.bare false) (Scenario.bare false))).
    + reflexivity.
    + eexists. reflexivity.
    + left. eexists. reflexivity.
  - apply (proj2 (ensure_installed_absorbs_failure (E := Scenario.machine "linux")
                    Scenario.bunx_connection (Scenario.bare true) (Scenario.bare true))).
    + reflexivity.
    + eexists. reflexivity.
    + right. exists (Scenario.bare true). split; [reflexivity|].
      exists (Scenario.bare true), (Scenario.bare true).
      split; eexists; reflexivity.
Defined.

(** * Further properties *)

(** ** Version checks and install prompts *)

Section PrerequisiteRuns.
Context {World : Type} {E : Externals World}.

Ltac unfold_installers :=
  unfold ensureUVInstalled, ensureBunInstalled, promptForUVInstall, promptForBunInstall,
    checkUVInstalled, checkBunInstalled, inquirer_confirm, execAsync, console_warn,
    console_log, console_error, spinner_start, spinner_succeed, spinner_fail, verbose,
    uv_question, bun_question in *.

(** Split on the result of the next imported call whose world is known. *)
Ltac next_call :=
  match goal with
  | |- context [exec_world ?c ?w] =>
      is_var w; destruct (exec_world c w) as [[[]|?] ?]; cbn
  | |- context [confirm_world ?q ?w] =>
      is_var w; destruct (confirm_world q w) as [[[|]|?] ?]; cbn
  end.

Ltac all_runs :=
  unfold_installers; unfold_run;
  repeat next_call;
  try (destruct (String.eqb platform "win32"); cbn; repeat next_call).

(** X1. [checkUVInstalled] and [checkBunInstalled] never throw: each
    runs its version command once and returns whether it succeeded,
    leaving the world as the command left it. *)
Theorem version_checks_never_throw (w : World) :
  checkUVInstalled w =
    mkOutcome (Ok (succeeded (fst (exec_world "uvx --version" w))))
      (snd (exec_world "uvx --version" w))
      [Exec "uvx --version" (succeeded (fst (exec_world "uvx --version" w)))] /\
  checkBunInstalled w =
    mkOutcome (Ok (succeeded (fst (exec_world "bun --version" w))))
      (snd (exec_world "bun --version" w))
      [Exec "bun --version" (succeeded (fst (exec_world "bun --version" w)))].
Proof.
  split; all_runs; reflexivity.
Qed.

(** X2. When the user answers no, the whole run of either install
    prompt is the question followed by the warning that the
    installation was declined: it returns false, leaves the world as
    the question left it, runs no command and prints nothing else. *)
Theorem declined_install_runs_nothing (wu wu1 wb wb1 : World) :
  confirm_world uv_question wu = (Ok false, wu1) ->
  confirm_world bun_question wb = (Ok false, wb1) ->
  promptForUVInstall wu =
    mkOutcome (Ok false) wu1 [Confirm uv_question; ConsoleWarn uv_declined_warning] /\
  promptForBunInstall wb =
    mkOutcome (Ok false) wb1 [Confirm bun_question; ConsoleWarn bun_declined_warning].
Proof.
  unfold_installers. intros Hu Hb. unfold_run. rewrite Hu, Hb. cbn.
  split; reflexivity.
Qed.

(** X3. Once the user has agreed, [promptForUVInstall] never throws: it
    returns whether the last command it ran succeeded, and it returns
    true exactly when its last act is to mark the spinner as
    succeeded. *)
Theorem promptForUVInstall_reports_last_command (w w1 : World) :
  confirm_world uv_question w = (Ok true, w1) ->
  let o := promptForUVInstall w in
  res o = Ok (last_command_succeeded (executed (emitted o))) /\
  (res o = Ok true <-> exists msg, last (emitted o) = Some (SpinnerSucceed msg)).
Proof.
  intros Hyes o. subst o. unfold_installers. unfold_run. rewrite Hyes. cbn.
  destruct (String.eqb platform "win32"); cbn; repeat next_call;
    (split; [reflexivity|]);
    (split; [intros H; try discriminate H; eexists; reflexivity
            | intros [msg H]; try discriminate H; reflexivity]).
Qed.

(** X4. Once the user has agreed, [promptForBunInstall] never throws:
    it returns whether the last command it ran succeeded, ending with
    the success line when it returns true and with the pointer to the
    manual installation when it returns false. *)
Theorem promptForBunInstall_reports_last_command (w w1 : World) :
  confirm_world bun_question w = (Ok true, w1) ->
  let o := promptForBunInstall w in
  res o = Ok (last_command_succeeded (executed (emitted o))) /\
  (res o = Ok true <->
   last (emitted o) = Some (ConsoleLog "Bun installed successfully!")) /\
  (res o = Ok false <->
   last (emitted o) = Some (ConsoleLog "Please install Bun manually from https://bun.sh")).
Proof.
  intros Hyes o. subst o. unfold_installers. unfold_run. rewrite Hyes. cbn.
  destruct (String.eqb platform "win32"); cbn; repeat next_call;
    (split; [reflexivity|]);
    (split; (split; [intros H; try discriminate H; reflexivity
                    | intros H; try discriminate H; reflexivity])).
Qed.

(** X5. An install prompt throws exactly when the confirm question
    itself throws, and with the same value; in that case nothing but the
    question happened. *)
Theorem install_prompts_throw_only_from_inquirer (w : World) (e : exn) :
  (res (promptForUVInstall w) = Throw e <-> fst (confirm_world uv_question w) = Throw e) /\
  (res (promptForBunInstall w) = Throw e <-> fst (confirm_world bun_question w) = Throw e) /\
  (succeeded (fst (confirm_world uv_question w)) = false ->
   emitted (promptForUVInstall w) = [Confirm uv_question]) /\
  (succeeded (fst (confirm_world bun_question w)) = false ->
   emitted (promptForBunInstall w) = [Confirm bun_question]).
Proof.
  repeat split; all_runs; intros H; try discriminate H; try exact H; reflexivity.
Qed.

(** X6. In every run of [promptForUVInstall] the spinner is stopped as
    often as it is started: once when the user agreed, never
    otherwise. *)
Theorem uv_spinner_always_stopped (w : World) :
  let tr := emitted (promptForUVInstall w) in
  spinner_stops tr = spinner_starts tr /\
  (spinner_starts tr = 1 <-> fst (confirm_world uv_question w) = Ok true) /\
  (spinner_starts tr = 0 <-> fst (confirm_world uv_question w) <> Ok true).
Proof.
  intros tr. subst tr. all_runs;
    (split; [reflexivity|]);
    (split; split; intros H; try discriminate H; try reflexivity; try congruence).
Qed.

(** X7. Off Windows, when Homebrew and then curl both fail,
    [promptForBunInstall] returns false and reports one error, the one
    of the curl command; the Homebrew error is not reported. *)
Theorem promptForBunInstall_reports_last_error (w w1 w2 w3 : World) (e1 e2 : exn) :
  String.eqb platform "win32" = false ->
  confirm_world bun_question w = (Ok true, w1) ->
  exec_world bun_brew w1 = (Throw e1, w2) ->
  exec_world bun_curl w2 = (Throw e2, w3) ->
  let o := promptForBunInstall w in
  res o = Ok false /\ after o = w3 /\
  console_errors (emitted o) = ["Failed to install Bun: " +:+ error_text e2].
Proof.
  intros Hos Hyes Hbrew Hcurl o. subst o. unfold_installers. unfold_run.
  rewrite Hyes. cbn. rewrite Hos. cbn. rewrite Hbrew. cbn. rewrite Hcurl. cbn.
  repeat split.
Qed.

Lemma ensureUVInstalled_prompts_iff (c : ConnectionInfo) (w : World) :
  (asked_to_confirm (emitted (ensureUVInstalled c w)) = true <->
   isUVRequired c = true /\ succeeded (fst (exec_world "uvx --version" w)) = false) /\
  (executed (emitted (ensureUVInstalled c w)) = [] <-> isUVRequired c = false).
Proof.
  unfold ensureUVInstalled. destruct (isUVRequired c).
  - all_runs; (split; split; intros H; try discriminate H; try reflexivity; auto);
      destruct H as [_ H]; discriminate H.
  - cbn. split; split; intros H; try reflexivity; try discriminate H.
    destruct H as [H _]; discriminate H.
Qed.

Lemma ensureBunInstalled_prompts_iff (c : ConnectionInfo) (w : World) :
  (asked_to_confirm (emitted (ensureBunInstalled c w)) = true <->
   isBunRequired c = true /\ succeeded (fst (exec_world "bun --version" w)) = false) /\
  (executed (emitted (ensureBunInstalled c w)) = [] <-> isBunRequired c = false).
Proof.
  unfold ensureBunInstalled. destruct (isBunRequired c).
  - all_runs; (split; split; intros H; try discriminate H; try reflexivity; auto);
      destruct H as [_ H]; discriminate H.
  - cbn. split; split; intros H; try reflexivity; try discriminate H.
    destruct H as [H _]; discriminate H.
Qed.

(** X8. [ensureUVInstalled] and [ensureBunInstalled] ask the user
    exactly when the connection requires the runtime and its version
    check failed, and they run no command at all exactly when the
    connection does not require the runtime. *)
Theorem ensure_installed_prompts_iff_required_and_absent (c : ConnectionInfo) (w : World) :
  ((asked_to_confirm (emitted (ensureUVInstalled c w)) = true <->
    isUVRequired c = true /\ succeeded (fst (exec_world "uvx --version" w)) = false) /\
   (executed (emitted (ensureUVInstalled c w)) = [] <-> isUVRequired c = false)) /\
  ((asked_to_confirm (emitted (ensureBunInstalled c w)) = true <->
    isBunRequired c = true /\ succeeded (fst (exec_world "bun --version" w)) = false) /\
   (executed (emitted (ensureBunInstalled c w)) = [] <-> isBunRequired c = false)).
Proof.
  split; [apply ensureUVInstalled_prompts_iff | apply ensureBunInstalled_prompts_iff].
Qed.

Lemma ensureUVInstalled_throws_iff (c : ConnectionInfo) (w : World) (e : exn) :
  res (ensureUVInstalled c w) = Throw e <->
  isUVRequired c = true /\ succeeded (fst (exec_world "uvx --version" w)) = false /\
  fst (confirm_world uv_question (snd (exec_world "uvx --version" w))) = Throw e.
Proof.
  unfold ensureUVInstalled. destruct (isUVRequired c).
  - all_runs; split; intros H; cbn in H;
      intuition (try discriminate; try congruence).
  - cbn. split; intros H; [discriminate H | destruct H as [H _]; discriminate H].
Qed.

Lemma ensureBunInstalled_throws_iff (c : ConnectionInfo) (w : World) (e : exn) :
  res (ensureBunInstalled c w) = Throw e <->
  isBunRequired c = true /\ succeeded (fst (exec_world "bun --version" w)) = false /\
  fst (confirm_world bun_question (snd (exec_world "bun --version" w))) = Throw e.
Proof.
  unfold ensureBunInstalled. destruct (isBunRequired c).
  - all_runs; split; intros H; cbn in H;
      intuition (try discriminate; try congruence).
  - cbn. split; intros H; [discriminate H | destruct H as [H _]; discriminate H].
Qed.

(** X9. [ensureUVInstalled] and [ensureBunInstalled] throw exactly when
    the runtime is required, its version check failed and the confirm
    question threw; the value thrown is the one of the question. *)
Theorem ensure_installed_throws_only_from_inquirer (c : ConnectionInfo) (w : World)
    (e : exn) :
  (res (ensureUVInstalled c w) = Throw e <->
   isUVRequired c = true /\ succeeded (fst (exec_world "uvx --version" w)) = false /\
   fst (confirm_world uv_question (snd (exec_world "uvx --version" w))) = Throw e) /\
  (res (ensureBunInstalled c w) = Throw e <->
   isBunRequired c = true /\ succeeded (fst (exec_world "bun --version" w)) = false /\
   fst (confirm_world bun_question (snd (exec_world "bun --version" w))) = Throw e).
Proof.
  split; [apply ensureUVInstalled_throws_iff | apply ensureBunInstalled_throws_iff].
Qed.

Lemma ensureUVInstalled_warns_iff (c : ConnectionInfo) (w : World) :
  In uv_warning (console_warnings (emitted (ensureUVInstalled c w))) <->
  isUVRequired c = true /\ succeeded (fst (exec_world "uvx --version" w)) = false /\
  res (promptForUVInstall (snd (exec_world "uvx --version" w))) = Ok false.
Proof.
  unfold ensureUVInstalled. destruct (isUVRequired c).
  - all_runs; split; intros H; cbn in H;
      intuition (try discriminate; try congruence).
  - cbn. split; intros H; [contradiction | destruct H as [H _]; discriminate H].
Qed.

Lemma ensureBunInstalled_warns_iff (c : ConnectionInfo) (w : World) :
  In bun_warning (console_warnings (emitted (ensureBunInstalled c w))) <->
  isBunRequired c = true /\ succeeded (fst (exec_world "bun --version" w)) = false /\
  res (promptForBunInstall (snd (exec_world "bun --version" w))) = Ok false.
Proof.
  unfold ensureBunInstalled. destruct (isBunRequired c).
  - all_runs; split; intros H; cbn in H;
      intuition (try discriminate; try congruence).
  - cbn. split; intros H; [contradiction | destruct H as [H _]; discriminate H].
Qed.

(** X10. The warning that the server might fail to launch is printed
    exactly when the runtime is required, its version check failed and
    the install prompt returned false. *)
Theorem ensure_installed_warns_iff_runtime_missing (c : ConnectionInfo) (w : World) :
  (In uv_warning (console_warnings (emitted (ensureUVInstalled c w))) <->
   isUVRequired c = true /\ succeeded (fst (exec_world "uvx --version" w)) = false /\
   res (promptForUVInstall (snd (exec_world "uvx --version" w))) = Ok false) /\
  (In bun_warning (console_warnings (emitted (ensureBunInstalled c w))) <->
   isBunRequired c = true /\ succeeded (fst (exec_world "bun --version" w)) = false /\
   res (promptForBunInstall (snd (exec_world "bun --version" w))) = Ok false).
Proof.
  split; [apply ensureUVInstalled_warns_iff | apply ensureBunInstalled_warns_iff].
Qed.

End PrerequisiteRuns.

(** ** Remote servers, API keys and environments *)

Section RuntimeRuns.
Context {World : Type} {E : Externals World}.


(** X12. Without a usable argument and without a usable saved key,
    when the user types a key and [setApiKey] returns, [ensureApiKey]
    returns the typed key and has passed exactly that key to
    [setApiKey] once; it warns exactly when the save result is not a
    success, and still returns the key. *)
Theorem ensureApiKey_saves_typed_key (apiKey saved : option string) (typed : string)
    (r : SaveResult) (w w1 w2 w3 : World) :
  apiKey = None \/ apiKey = Some EmptyString ->
  getApiKey_world w = (Ok saved, w1) ->
  saved = None \/ saved = Some EmptyString ->
  res (promptForApiKey w1) = Ok typed ->
  after (promptForApiKey w1) = w2 ->
  setApiKey_world typed w2 = (Ok r, w3) ->
  let o := ensureApiKey apiKey w in
  res o = Ok typed /\ after o = w3 /\
  saved_keys (emitted o) = [typed] /\
  console_warnings (emitted o) = (if success r then [] else [save_failed_warning]).
Proof.
  intros Harg Hget Hsaved Hres Hafter Hset o. subst o.
  apply truthy_None_iff in Harg. apply truthy_None_iff in Hsaved.
  unfold ensureApiKey. rewrite Harg.
  unfold getApiKey, setApiKey, console_warn, promptForApiKey, inquirer_password in *.
  unfold_run. rewrite Hget. cbn -[truthy]. rewrite Hsaved.
  unfold external in *.
  destruct (password_world _ w1) as [[t|e] w2']; cbn in *; [|discriminate Hres].
  injection Hres as ->. subst w2'. rewrite Hset. cbn.
  destruct r as [[|]]; cbn; repeat split.
Qed.

(** X13. [ensureApiKey] catches nothing: an error of [getApiKey] is its
    result and the user is not asked; an error of the prompt is its
    result and nothing is saved; an error of [setApiKey] is its result,
    so the typed key is not returned. *)
Theorem ensureApiKey_propagates_errors (w : World) (e : exn) :
  (forall w1,
     getApiKey_world w = (Throw e, w1) ->
     ensureApiKey None w = mkOutcome (Throw e) w1 [GetApiKey]) /\
  (forall saved w1,
     getApiKey_world w = (Ok saved, w1) ->
     saved = None \/ saved = Some EmptyString ->
     res (promptForApiKey w1) = Throw e ->
     res (ensureApiKey None w) = Throw e /\
     saved_keys (emitted (ensureApiKey None w)) = []) /\
  (forall saved w1 typed w3,
     getApiKey_world w = (Ok saved, w1) ->
     saved = None \/ saved = Some EmptyString ->
     res (promptForApiKey w1) = Ok typed ->
     setApiKey_world typed (after (promptForApiKey w1)) = (Throw e, w3) ->
     res (ensureApiKey None w) = Throw e /\
     after (ensureApiKey None w) = w3 /\
     saved_keys (emitted (ensureApiKey None w)) = [typed]).
Proof.
  unfold ensureApiKey, getApiKey, setApiKey, console_warn, promptForApiKey,
    inquirer_password.
  cbn [truthy]. unfold_run.
  split; [|split].
  - intros w1 Hget. rewrite Hget. reflexivity.
  - intros saved w1 Hget Hsaved. apply truthy_None_iff in Hsaved.
    rewrite Hget. cbn -[truthy]. rewrite Hsaved.
    destruct (password_world _ w1) as [[t|e'] w2]; cbn; intros Hres;
      [discriminate Hres | split; [exact Hres | reflexivity]].
  - intros saved w1 typed w3 Hget Hsaved. apply truthy_None_iff in Hsaved.
    rewrite Hget. cbn -[truthy]. rewrite Hsaved.
    destruct (password_world _ w1) as [[t|e'] w2]; cbn; intros Hres Hset;
      [|discriminate Hres].
    injection Hres as ->. rewrite Hset. cbn. repeat split.
Qed.


(** X15. The runtime environment keeps every binding of [baseEnv];
    building it again from its own result changes nothing; and laying
    further bindings over [baseEnv] is the same as laying them over the
    result. *)
Theorem getRuntimeEnvironment_overlay (baseEnv : gmap string string) (w : World) :
  baseEnv ⊆ getRuntimeEnvironment (Some baseEnv) w /\
  getRuntimeEnvironment (Some (getRuntimeEnvironment (Some baseEnv) w)) w
  = getRuntimeEnvironment (Some baseEnv) w /\
  (forall extra : gmap string string,
     getRuntimeEnvironment (Some (extra ∪ baseEnv)) w
     = extra ∪ getRuntimeEnvironment (Some baseEnv) w).
Proof.
  unfold getRuntimeEnvironment. cbn.
  split; [apply map_union_subseteq_l|]. split.
  - rewrite <- (assoc_L (∪)). f_equal. apply (idemp_L (∪)).
  - intros extra. symmetry. apply (assoc_L (∪)).
Qed.

End RuntimeRuns.

(** ** Classification of servers *)

Lemma isRemote_app (l1 l2 : list ConnectionInfo) (r : option bool) :
  isRemote (mkServerInfo (l1 ++ l2) r)
  = isRemote (mkServerInfo l1 r) || isRemote (mkServerInfo l2 r).
Proof.
  unfold isRemote. cbn. rewrite existsb_app.
  destruct (not_strictly_false r); [rewrite !andb_true_r | rewrite !andb_false_r];
    reflexivity.
Qed.

Lemma isRemote_Permutation (l1 l2 : list ConnectionInfo) (r : option bool) :
  l1 ≡ₚ l2 -> isRemote (mkServerInfo l1 r) = isRemote (mkServerInfo l2 r).
Proof.
  intros Hperm. unfold isRemote. cbn. f_equal.
  induction Hperm as [|x l l' _ IH|x y l|l l' l'' _ IH1 _ IH2]; cbn.
  - reflexivity.
  - now rewrite IH.
  - now rewrite !orb_assoc, (orb_comm (_ && _) (_ && _)).
  - now rewrite IH1.
Qed.

(** X16. However the connections of a server are split in two, and in
    whatever order they come, the server is remote exactly when one of
    the two parts, with the same flag, is. *)
Theorem isRemote_any_split (l l1 l2 : list ConnectionInfo) (r : option bool) :
  l ≡ₚ l1 ++ l2 ->
  isRemote (mkServerInfo l r)
  = isRemote (mkServerInfo l1 r) || isRemote (mkServerInfo l2 r).
Proof.
  intros Hperm. rewrite (isRemote_Permutation l (l1 ++ l2) r Hperm). apply isRemote_app.
Qed.

Lemma runtime_connection_is_stdio (c : ConnectionInfo) :
  isUVRequired c || isBunRequired c = true -> String.eqb (type c) "http" = false.
Proof.
  unfold isUVRequired, isBunRequired.
  destruct (String.eqb_spec (type c) "stdio") as [->|Hne]; cbn; [reflexivity|].
  discriminate.
Qed.

(** X17. A server all of whose connections require UV or Bun is never
    remote, whatever its flag. *)
Theorem local_runtime_servers_are_not_remote (server : ServerInfo) :
  forallb (fun c => isUVRequired c || isBunRequired c) (connections server) = true ->
  isRemote server = false.
Proof.
  unfold isRemote. intros Hall.
  assert (existsb (fun conn => String.eqb (type conn) "http" && has_key (deploymentUrl conn))
            (connections server) = false) as ->; [|reflexivity].
  induction (connections server) as [|c l IH]; cbn; [reflexivity|].
  cbn in Hall. apply andb_true_iff in Hall as [Hc Hl].
  rewrite (runtime_connection_is_stdio c Hc), (IH Hl). reflexivity.
Qed.

(** ** Installing for a client: announcements, restarts, repeated installs *)

Section InstallRuns.
Context {World : Type} {E : Externals World}.

(** X18. When the configuration can be read, the success line is
    printed exactly when [writeConfig] succeeded, and nothing else is
    printed with [console.log]. *)
Theorem install_announces_success_iff_written (params : InstallServerForClientParams)
    (w w1 : World) (config : ClientConfig) :
  readConfig_world (client params) w = (Ok config, w1) ->
  console_logs (emitted (installServerForClient params w)) =
  if succeeded (fst (writeConfig_world
                       (assign_mcpServer config (getServerName (qualifiedName params))
                          (serverConfig params))
                       (client params) w1))
  then [success_message params]
  else [].
Proof.
  intros Hread.
  unfold installServerForClient, readConfig, writeConfig, promptForRestart,
    verbose, console_log, success_message.
  unfold_run. rewrite Hread. cbn.
  destruct (writeConfig_world _ _ w1) as [[[]|e] w2]; cbn; [|reflexivity].
  destruct (promptForRestart_world _ w2) as [[[]|e] w3]; reflexivity.
Qed.

(** X19. When the configuration has been read and written, the result
    of [installServerForClient] is the result of [promptForRestart]: an
    error of the restart prompt reaches the caller although the
    configuration has been written, and the run ends with the
    completion line only when the prompt succeeded. *)
Theorem install_outcome_is_restart_outcome (params : InstallServerForClientParams)
    (w w1 w2 : World) (config : ClientConfig) :
  readConfig_world (client params) w = (Ok config, w1) ->
  writeConfig_world
    (assign_mcpServer config (getServerName (qualifiedName params)) (serverConfig params))
    (client params) w1 = (Ok tt, w2) ->
  let o := installServerForClient params w in
  res o = fst (promptForRestart_world (client params) w2) /\
  after o = snd (promptForRestart_world (client params) w2) /\
  written_configs (emitted o) =
    [(assign_mcpServer config (getServerName (qualifiedName params)) (serverConfig params),
      client params)] /\
  (last (emitted o) = Some (Verbose "Installation process completed") <->
   succeeded (fst (promptForRestart_world (client params) w2)) = true) /\
  (last (emitted o) = Some (PromptForRestart (client params)) <->
   succeeded (fst (promptForRestart_world (client params) w2)) = false).
Proof.
  intros Hread Hwrite o. subst o.
  unfold installServerForClient, readConfig, writeConfig, promptForRestart,
    verbose, console_log.
  unfold_run. rewrite Hread. cbn. rewrite Hwrite. cbn.
  destruct (promptForRestart_world _ w2) as [[[]|e] w3]; cbn;
    repeat split; intros H; try discriminate H; reflexivity.
Qed.

(** X20. Two installs for the same client under names other than
    [__proto__], when the second reads what the first wrote: the second
    write holds the second server under its name, still holds the first
    server when the names differ, leaves every other key and the rest of
    the document as first read, and repeats the first write when name
    and configuration are the same. *)
Theorem successive_installs_accumulate (p1 p2 : InstallServerForClientParams)
    (w w1 w2 w3 w4 : World) (config : ClientConfig) :
  let n1 := getServerName (qualifiedName p1) in
  let n2 := getServerName (qualifiedName p2) in
  n1 <> "__proto__" ->
  n2 <> "__proto__" ->
  client p2 = client p1 ->
  readConfig_world (client p1) w = (Ok config, w1) ->
  writeConfig_world (assign_mcpServer config n1 (serverConfig p1)) (client p1) w1
  = (Ok tt, w2) ->
  promptForRestart_world (client p1) w2 = (Ok tt, w3) ->
  readConfig_world (client p1) w3
  = (Ok (assign_mcpServer config n1 (serverConfig p1)), w4) ->
  exists written,
    written_configs
      (emitted (installServerForClient p2 (after (installServerForClient p1 w))))
    = [(written, client p1)] /\
    mcpServers written !! n2 = Some (serverConfig p2) /\
    (n1 <> n2 -> mcpServers written !! n1 = Some (serverConfig p1)) /\
    (forall k, k <> n1 -> k <> n2 -> mcpServers written !! k = mcpServers config !! k) /\
    mcpServers_prototype written = mcpServers_prototype config /\
    others written = others config /\
    (n1 = n2 -> serverConfig p1 = serverConfig p2 ->
     written = assign_mcpServer config n1 (serverConfig p1)).
Proof.
  intros n1 n2 Hn1 Hn2 Hclient Hread Hwrite Hrestart Hreread.
  destruct (install_run_after_read p1 w w1 config Hread) as [_ Hfirst].
  fold n1 in Hfirst. rewrite Hwrite, Hrestart in Hfirst. cbn in Hfirst.
  destruct Hfirst as [_ ->].
  rewrite <- Hclient in Hreread.
  destruct (install_run_after_read p2 w3 w4 _ Hreread) as [Hsecond _].
  rewrite Hclient in Hsecond. fold n2 in Hsecond.
  eexists. split; [exact Hsecond|].
  rewrite (assign_mcpServer_writes config n1 (serverConfig p1)
             (ordinary_name_runs_no_setter config n1 Hn1)).
  rewrite (assign_mcpServer_writes _ n2 (serverConfig p2)
             (ordinary_name_runs_no_setter _ n2 Hn2)).
  cbn.
  split; [apply lookup_insert_eq|].
  split; [intros Hne; rewrite lookup_insert_ne by congruence; apply lookup_insert_eq|].
  split; [intros k Hk1 Hk2; rewrite !lookup_insert_ne by congruence; reflexivity|].
  split; [reflexivity|]. split; [reflexivity|].
  intros Hn Hv. rewrite <- Hn, <- Hv. rewrite insert_insert_eq. reflexivity.
Qed.

(** X21. When the configuration of the client can be read and the
    normalized name is not [__proto__], exactly one configuration is
    handed to [writeConfig], for that client, and its [mcpServers] entry
    for the name is the supplied server configuration, whatever that is
    and whatever was stored under the name before. *)
Theorem install_writes_entry_under_ordinary_name (params : InstallServerForClientParams)
    (w w1 : World) (config : ClientConfig) :
  readConfig_world (client params) w = (Ok config, w1) ->
  getServerName (qualifiedName params) <> "__proto__" ->
  exists written,
    written_configs (emitted (installServerForClient params w))
    = [(written, client params)] /\
    mcpServers written !! getServerName (qualifiedName params)
    = Some (serverConfig params).
Proof.
  intros Hread Hname.
  destruct (install_run_after_read params w w1 config Hread) as [Hw _].
  eexists. split; [exact Hw|].
  rewrite (assign_mcpServer_writes config _ (serverConfig params)
             (ordinary_name_runs_no_setter config _ Hname)).
  apply lookup_insert_eq.
Qed.

(** X22. Under a normalized name other than [__proto__], the
    configuration handed to [writeConfig] agrees with the one read on
    every other [mcpServers] key, on what the [mcpServers] object
    inherits from and on everything outside [mcpServers]; its keys are
    the old keys plus the name, so exactly one key is added when the
    name was not there and none otherwise. *)
Theorem install_changes_one_key_under_ordinary_name
    (params : InstallServerForClientParams) (w w1 : World) (config : ClientConfig) :
  readConfig_world (client params) w = (Ok config, w1) ->
  getServerName (qualifiedName params) <> "__proto__" ->
  let name := getServerName (qualifiedName params) in
  exists written,
    written_configs (emitted (installServerForClient params w))
    = [(written, client params)] /\
    (forall k, k <> name -> mcpServers written !! k = mcpServers config !! k) /\
    mcpServers_prototype written = mcpServers_prototype config /\
    others written = others config /\
    dom (mcpServers written) = {[ name ]} ∪ dom (mcpServers config) /\
    size (mcpServers written) =
    match mcpServers config !! name with
    | None => S (size (mcpServers config))
    | Some _ => size (mcpServers config)
    end.
Proof.
  intros Hread Hname name.
  destruct (install_run_after_read params w w1 config Hread) as [Hw _].
  eexists. split; [exact Hw|]. fold name.
  rewrite (assign_mcpServer_writes config name (serverConfig params)
             (ordinary_name_runs_no_setter config name Hname)).
  cbn.
  split; [|split; [reflexivity|split; [reflexivity|split]]].
  - intros k Hk. apply lookup_insert_ne. congruence.
  - apply dom_insert_L.
  - destruct (mcpServers config !! name) as [old|] eqn:Hold.
    + rewrite <- (insert_delete_id (mcpServers config) name old) at 2 by exact Hold.
      rewrite <- insert_delete_eq.
      rewrite !map_size_insert_None by apply lookup_delete_eq. reflexivity.
    + apply map_size_insert_None. exact Hold.
Qed.

End InstallRuns.

(** ** Instances of the further properties *)

Lemma declined_install_runs_nothing_witness :
  promptForUVInstall (E := Scenario.machine "linux") (Scenario.bare false) =
    mkOutcome (Ok false) (Scenario.bare false)
      [Confirm uv_question; ConsoleWarn uv_declined_warning] /\
  promptForBunInstall (E := Scenario.machine "linux") (Scenario.bare false) =
    mkOutcome (Ok false) (Scenario.bare false)
      [Confirm bun_question; ConsoleWarn bun_declined_warning].
Proof.
  apply (declined_install_runs_nothing (E := Scenario.machine "linux")
           (Scenario.bare false) (Scenario.bare false)
           (Scenario.bare false) (Scenario.bare false));
    reflexivity.
Defined.

(** Without curl the wget download installs UV. *)
Lemma promptForUVInstall_reports_last_command_witness :
  res (promptForUVInstall (E := Scenario.machine "linux") (Faulty.without_curl true))
  = Ok true /\
  executed (emitted (promptForUVInstall (E := Scenario.machine "linux")
                       (Faulty.without_curl true)))
  = [(uv_curl, false); (uv_wget, true)].
Proof.
  destruct (promptForUVInstall_reports_last_command (E := Scenario.machine "linux")
              (Faulty.without_curl true) (Faulty.without_curl true) eq_refl)
    as [Hres _].
  split; [rewrite Hres|]; vm_compute; reflexivity.
Defined.

(** Homebrew installs Bun; on the bare machine nothing does. *)
Lemma promptForBunInstall_reports_last_command_witness :
  res (promptForBunInstall (E := Scenario.machine "darwin") (Faulty.without_curl true))
  = Ok true /\
  res (promptForBunInstall (E := Scenario.machine "win32") (Scenario.bare true))
  = Ok false.
Proof.
  destruct (promptForBunInstall_reports_last_command (E := Scenario.machine "darwin")
              (Faulty.without_curl true) (Faulty.without_curl true) eq_refl)
    as [Hmac _].
  destruct (promptForBunInstall_reports_last_command (E := Scenario.machine "win32")
              (Scenario.bare true) (Scenario.bare true) eq_refl)
    as [Hwin _].
  split; [rewrite Hmac | rewrite Hwin]; vm_compute; reflexivity.
Defined.

(** Without a terminal the question throws and nothing else happens. *)
Lemma install_prompts_throw_only_from_inquirer_witness :
  res (promptForUVInstall (E := Faulty.machine Faulty.headless "linux") (Scenario.bare true))
  = Throw Faulty.tty_error /\
  emitted (promptForBunInstall (E := Faulty.machine Faulty.headless "linux")
             (Scenario.bare true))
  = [Confirm bun_question].
Proof.
  destruct (install_prompts_throw_only_from_inquirer
              (E := Faulty.machine Faulty.headless "linux")
              (Scenario.bare true) Faulty.tty_error)
    as [Huv [_ [_ Hbun]]].
  split; [apply Huv; reflexivity | apply Hbun; reflexivity].
Defined.

Lemma promptForBunInstall_reports_last_error_witness :
  res (promptForBunInstall (E := Scenario.machine "linux") (Scenario.bare true))
  = Ok false /\
  after (promptForBunInstall (E := Scenario.machine "linux") (Scenario.bare true))
  = Scenario.bare true /\
  console_errors (emitted (promptForBunInstall (E := Scenario.machine "linux")
                             (Scenario.bare true)))
  = ["Failed to install Bun: Command failed: curl -fsSL https://bun.sh/install | bash"].
Proof.
  apply (promptForBunInstall_reports_last_error (E := Scenario.machine "linux")
           (Scenario.bare true) (Scenario.bare true) (Scenario.bare true)
           (Scenario.bare true)
           (Scenario.command_failed bun_brew) (Scenario.command_failed bun_curl));
    reflexivity.
Defined.

(** The settings file cannot be written: the typed key is returned
    with a warning. *)
Lemma ensureApiKey_saves_typed_key_witness :
  res (ensureApiKey (E := Faulty.machine Faulty.read_only_settings "linux")
         (Some EmptyString) (Scenario.online true)) = Ok "typed-key" /\
  after (ensureApiKey (E := Faulty.machine Faulty.read_only_settings "linux")
           (Some EmptyString) (Scenario.online true)) = Scenario.online true /\
  saved_keys (emitted (ensureApiKey (E := Faulty.machine Faulty.read_only_settings "linux")
                         (Some EmptyString) (Scenario.online true))) = ["typed-key"] /\
  console_warnings
    (emitted (ensureApiKey (E := Faulty.machine Faulty.read_only_settings "linux")
                (Some EmptyString) (Scenario.online true))) = [save_failed_warning].
Proof.
  apply (ensureApiKey_saves_typed_key (E := Faulty.machine Faulty.read_only_settings "linux")
           (Some EmptyString) None "typed-key" (mkSaveResult false)
           (Scenario.online true) (Scenario.online true) (Scenario.online true)
           (Scenario.online true)).
  - right. reflexivity.
  - reflexivity.
  - left. reflexivity.
  - reflexivity.
  - reflexivity.
  - reflexivity.
Defined.

(** Unreadable settings, and settings that break while saving. *)
Lemma ensureApiKey_propagates_errors_witness :
  ensureApiKey (E := Faulty.machine Faulty.unreadable_settings "linux")
    None (Scenario.online true)
  = mkOutcome (Throw Faulty.settings_error) (Scenario.online true) [GetApiKey] /\
  (res (ensureApiKey (E := Faulty.machine Faulty.headless "linux")
          None (Scenario.online true)) = Throw Faulty.tty_error /\
   saved_keys (emitted (ensureApiKey (E := Faulty.machine Faulty.headless "linux")
                          None (Scenario.online true))) = []) /\
  (res (ensureApiKey (E := Faulty.machine Faulty.broken_settings "linux")
          None (Scenario.online true)) = Throw Faulty.settings_error /\
   after (ensureApiKey (E := Faulty.machine Faulty.broken_settings "linux")
            None (Scenario.online true)) = Scenario.online true /\
   saved_keys (emitted (ensureApiKey (E := Faulty.machine Faulty.broken_settings "linux")
                          None (Scenario.online true))) = ["typed-key"]).
Proof.
  split; [|split].
  - apply (proj1 (ensureApiKey_propagates_errors
                    (E := Faulty.machine Faulty.unreadable_settings "linux")
                    (Scenario.online true) Faulty.settings_error)).
    reflexivity.
  - apply (proj1 (proj2 (ensureApiKey_propagates_errors
                           (E := Faulty.machine Faulty.headless "linux")
                           (Scenario.online true) Faulty.tty_error))
             None (Scenario.online true)).
    + reflexivity.
    + left. reflexivity.
    + reflexivity.
  - apply (proj2 (proj2 (ensureApiKey_propagates_errors
                           (E := Faulty.machine Faulty.broken_settings "linux")
                           (Scenario.online true) Faulty.settings_error))
             None (Scenario.online true) "typed-key" (Scenario.online true)).
    + reflexivity.
    + left. reflexivity.
    + reflexivity.
    + reflexivity.
Defined.


Lemma isRemote_any_split_witness :
  isRemote (mkServerInfo [Scenario.uvx_connection; Scenario.hosted_connection] None)
  = isRemote (mkServerInfo [Scenario.hosted_connection] None)
    || isRemote (mkServerInfo [Scenario.uvx_connection] None).
Proof.
  apply (isRemote_any_split
           [Scenario.uvx_connection; Scenario.hosted_connection]
           [Scenario.hosted_connection] [Scenario.uvx_connection] None).
  apply perm_swap.
Defined.

Lemma local_runtime_servers_are_not_remote_witness :
  isRemote (mkServerInfo [Scenario.uvx_connection; Scenario.bunx_connection] (Some true))
  = false.
Proof.
  apply (local_runtime_servers_are_not_remote
           (mkServerInfo [Scenario.uvx_connection; Scenario.bunx_connection] (Some true))).
  reflexivity.
Defined.

(** On the locked machine the write fails and nothing is announced. *)
Lemma install_announces_success_iff_written_witness :
  console_logs (emitted (installServerForClient (E := Scenario.machine "linux")
                           Scenario.install_git Scenario.locked)) = [] /\
  console_logs (emitted (installServerForClient (E := Scenario.machine "linux")
                           Scenario.install_git (Scenario.online true)))
  = ["@modelcontextprotocol/git successfully installed for cline"].
Proof.
  split.
  - rewrite (install_announces_success_iff_written (E := Scenario.machine "linux")
               Scenario.install_git Scenario.locked Scenario.locked
               Scenario.cline_config eq_refl).
    vm_compute. reflexivity.
  - rewrite (install_announces_success_iff_written (E := Scenario.machine "linux")
               Scenario.install_git (Scenario.online true) (Scenario.online true)
               Scenario.cline_config eq_refl).
    vm_compute. reflexivity.
Defined.

(** The restart of the client fails after the configuration was
    written. *)
Lemma install_outcome_is_restart_outcome_witness :
  res (installServerForClient (E := Faulty.machine Faulty.stuck_restart "linux")
         Scenario.install_git (Scenario.online true)) = Throw Faulty.restart_error /\
  written_configs
    (emitted (installServerForClient (E := Faulty.machine Faulty.stuck_restart "linux")
                Scenario.install_git (Scenario.online true)))
  = [(assign_mcpServer Scenario.cline_config "git" Scenario.git_server, "cline")].
Proof.
  destruct (install_outcome_is_restart_outcome
              (E := Faulty.machine Faulty.stuck_restart "linux")
              Scenario.install_git (Scenario.online true) (Scenario.online true)
              (snd (Scenario.write_file
                      (assign_mcpServer Scenario.cline_config "git" Scenario.git_server)
                      "cline" (Scenario.online true)))
              Scenario.cline_config eq_refl eq_refl)
    as [Hres [_ [Hwritten _]]].
  split; [rewrite Hres; reflexivity | exact Hwritten].
Defined.

(** Installing git and then amap for cline. *)
Lemma successive_installs_accumulate_witness :
  exists written,
    written_configs
      (emitted (installServerForClient (E := Scenario.machine "linux")
                  Scenario.install_amap
                  (after (installServerForClient (E := Scenario.machine "linux")
                            Scenario.install_git (Scenario.online true)))))
    = [(written, "cline")] /\
    mcpServers written !! "amap" = Some Scenario.amap_stdio /\
    mcpServers written !! "git" = Some Scenario.git_server /\
    mcpServers written !! "filesystem" = Some Scenario.filesystem_server.
Proof.
  destruct (successive_installs_accumulate (E := Scenario.machine "linux")
              Scenario.install_git Scenario.install_amap
              (Scenario.online true) (Scenario.online true)
              (snd (Scenario.write_file
                      (assign_mcpServer Scenario.cline_config "git" Scenario.git_server)
                      "cline" (Scenario.online true)))
              (snd (Scenario.write_file
                      (assign_mcpServer Scenario.cline_config "git" Scenario.git_server)
                      "cline" (Scenario.online true)))
              (snd (Scenario.write_file
                      (assign_mcpServer Scenario.cline_config "git" Scenario.git_server)
                      "cline" (Scenario.online true)))
              Scenario.cline_config
              ltac:(discriminate) ltac:(discriminate)
              eq_refl eq_refl eq_refl eq_refl eq_refl)
    as [written [Hw [Hamap [Hgit [Hother _]]]]].
  exists written. split; [exact Hw|]. split; [exact Hamap|].
  split; [apply Hgit; discriminate|].
  rewrite Hother by discriminate. vm_compute. reflexivity.
Defined.

(** Installing [@amap/amap] for cline replaces the entry [amap], which
    held a URL, by the supplied stdio configuration. *)
Lemma install_writes_entry_under_ordinary_name_witness :
  exists written,
    written_configs
      (emitted (installServerForClient (E := Scenario.machine "linux")
                  Scenario.install_amap (Scenario.online true)))
    = [(written, "cline")] /\
    mcpServers written !! "amap" = Some Scenario.amap_stdio.
Proof.
  apply (install_writes_entry_under_ordinary_name (E := Scenario.machine "linux")
           Scenario.install_amap (Scenario.online true) (Scenario.online true)
           Scenario.cline_config).
  - vm_compute. reflexivity.
  - discriminate.
Defined.

(** Installing [@modelcontextprotocol/git] for cline adds the key [git]
    and keeps the two servers and the theme that were there. *)
Lemma install_changes_one_key_under_ordinary_name_witness :
  exists written,
    written_configs
      (emitted (installServerForClient (E := Scenario.machine "linux")
                  Scenario.install_git (Scenario.online true)))
    = [(written, "cline")] /\
    (forall k, k <> "git" ->
               mcpServers written !! k = mcpServers Scenario.cline_config !! k) /\
    mcpServers_prototype written = ObjectPrototype /\
    others written = others Scenario.cline_config /\
    dom (mcpServers written) = {[ "git" ]} ∪ dom (mcpServers Scenario.cline_config) /\
    size (mcpServers written) = 3.
Proof.
  apply (install_changes_one_key_under_ordinary_name (E := Scenario.machine "linux")
           Scenario.install_git (Scenario.online true) (Scenario.online true)
           Scenario.cline_config).
  - vm_compute. reflexivity.
  - discriminate.
Defined.
